(** * chat-message-react: the mock backend and the room-join gate

    A shallow embedding of [src/services/mockBackend.ts] (the persisted
    store, the command layer and the simulated socket) and of the room
    handlers of [src/components/ChatApp.tsx], followed by the properties
    of the specification that concern them.

    Conventions of the embedding.
    - [localStorage] holds one JSON document per key.  The three keys the
      backend uses are kept typed: a key is either absent ([None]) or
      holds a sequence of records.  [JSON.stringify] never yields the
      empty string for an array, so a present key is always truthy, and
      the JSON round trip is the identity on these records (a property
      whose value is [undefined] is dropped, which is [None] here).
    - [Date.now()] is an input of the program: the world carries the wall
      clock as a function of the number of readings made so far.
    - [setTimeout] is a queue of pending deliveries; a separate step fires
      the oldest one.  The artificial latency at the head of [login] and
      [register] precedes every store access, so a command body runs
      without interleaving and is a function of the world it starts in.
    - A command that throws keeps the writes made before the [throw]. *)

From Stdlib Require Import ZArith Ascii String List Bool Lia Sorted.
From Stdlib Require Import DecimalString DecimalZ DecimalPos.
Import ListNotations.
Local Open Scope string_scope.
Local Open Scope Z_scope.

(** ** Data model ([src/types.ts]) *)

Module User.
Record t := mk {
  id : string;
  name : string;
  email : string;
  password : option string;
  avatar : string;
  isOnline : bool;
  bio : option string
}.

Definition set_isOnline (b : bool) (u : t) : t :=
  mk (id u) (name u) (email u) (password u) (avatar u) b (bio u).

(** [Partial<User>]: each property is present or not; the two optional
    properties may be present with the value [undefined]. *)
Record partial := mkPartial {
  p_id : option string;
  p_name : option string;
  p_email : option string;
  p_password : option (option string);
  p_avatar : option string;
  p_isOnline : option bool;
  p_bio : option (option string)
}.

Definition over {A} (o : option A) (a : A) : A :=
  match o with Some x => x | None => a end.

(** [{ ...u, ...updates }] *)
Definition merge (u : t) (updates : partial) : t :=
  mk (over (p_id updates) (id u)) (over (p_name updates) (name u))
     (over (p_email updates) (email u)) (over (p_password updates) (password u))
     (over (p_avatar updates) (avatar u)) (over (p_isOnline updates) (isOnline u))
     (over (p_bio updates) (bio u)).
End User.

Module Room.
Record t := mk {
  id : string;
  name : string;
  isPrivate : bool;
  password : option string;
  createdBy : string;
  description : option string
}.

(** [Omit<Room, 'id'>] *)
Record spec := mkSpec {
  s_name : string;
  s_isPrivate : bool;
  s_password : option string;
  s_createdBy : string;
  s_description : option string
}.

(** [{ ...room, id }] *)
Definition withId (room : spec) (i : string) : t :=
  mk i (s_name room) (s_isPrivate room) (s_password room)
     (s_createdBy room) (s_description room).
End Room.

Inductive MessageType := text | image.

Module Message.
Record t := mk {
  id : string;
  roomId : string;
  senderId : string;
  senderName : string;
  senderAvatar : string;
  content : string;
  type : MessageType;
  timestamp : Z
}.

(** [Omit<Message, 'id' | 'timestamp'>] *)
Record spec := mkSpec {
  s_roomId : string;
  s_senderId : string;
  s_senderName : string;
  s_senderAvatar : string;
  s_content : string;
  s_type : MessageType
}.

(** [{ ...message, id, timestamp }] *)
Definition stamp (message : spec) (i : string) (ts : Z) : t :=
  mk i (s_roomId message) (s_senderId message) (s_senderName message)
     (s_senderAvatar message) (s_content message) (s_type message) ts.
End Message.

(** The socket events [{ type, payload }] the backend broadcasts. *)
Inductive Event :=
| USER_UPDATE (payload : User.t)
| USER_JOINED (payload : User.t)
| USER_LEFT (userId : string)
| ROOM_CREATED (payload : Room.t)
| ROOM_DELETED (roomId : string)
| NEW_MESSAGE (payload : Message.t).

(** [new Error(message)] *)
Inductive Error := Err (message : string).

Inductive Result (A : Type) :=
| Ok (a : A)
| Throw (e : Error).
Arguments Ok {A} a.
Arguments Throw {A} e.

(** The names the specification gives to the two errors the backend
    throws. *)
Definition InvalidCredentials : Error := Err "Invalid credentials".
Definition EmailTaken : Error := Err "Email already exists".

(** ** The world: store, socket, timers, clock *)

Record LocalStorage := mkStorage {
  item_users : option (list User.t);
  item_rooms : option (list Room.t);
  item_messages : option (list Message.t)
}.

(** A subscriber: a callback with an identity (the [Set] compares
    callbacks by reference) that returns or throws on an event. *)
Record Listener := mkListener {
  lid : nat;
  run : Event -> Result unit
}.

Record World := mkWorld {
  storage : LocalStorage;
  listeners : list Listener;        (* the Set, in insertion order *)
  timers : list Event;              (* broadcasts waiting for their timeout *)
  delivered : list (nat * Event);   (* callback invocations, oldest first *)
  clock : nat -> Z;                 (* value of the n-th Date.now() *)
  ticks : nat                       (* readings made so far *)
}.

Definition set_storage (s : LocalStorage) (w : World) : World :=
  mkWorld s (listeners w) (timers w) (delivered w) (clock w) (ticks w).
Definition set_listeners (l : list Listener) (w : World) : World :=
  mkWorld (storage w) l (timers w) (delivered w) (clock w) (ticks w).
Definition set_timers (t : list Event) (w : World) : World :=
  mkWorld (storage w) (listeners w) t (delivered w) (clock w) (ticks w).
Definition set_delivered (d : list (nat * Event)) (w : World) : World :=
  mkWorld (storage w) (listeners w) (timers w) d (clock w) (ticks w).
Definition set_ticks (n : nat) (w : World) : World :=
  mkWorld (storage w) (listeners w) (timers w) (delivered w) (clock w) n.

(** ** Commands: state passing with exceptions *)

Definition Cmd (A : Type) : Type := World -> Result A * World.

Definition ret {A} (a : A) : Cmd A := fun w => (Ok a, w).
Definition throw {A} (e : Error) : Cmd A := fun w => (Throw e, w).
Definition bind {A B} (c : Cmd A) (k : A -> Cmd B) : Cmd B :=
  fun w =>
    match c w with
    | (Ok a, w') => k a w'
    | (Throw e, w') => (Throw e, w')
    end.

Declare Scope cmd_scope.
Delimit Scope cmd_scope with cmd.
Notation "x <- c ;; k" := (bind c (fun x => k))
  (at level 61, c at next level, right associativity) : cmd_scope.
Notation "c ;; k" := (bind c (fun _ => k))
  (at level 61, right associativity) : cmd_scope.
Local Open Scope cmd_scope.

(** [try { c } catch (e) { h e }] *)
Definition try_catch {A} (c : Cmd A) (h : Error -> Cmd A) : Cmd A :=
  fun w =>
    match c w with
    | (Ok a, w') => (Ok a, w')
    | (Throw e, w') => h e w'
    end.

Definition result {A} (c : Cmd A) (w : World) : Result A := fst (c w).
Definition after {A} (c : Cmd A) (w : World) : World := snd (c w).

(** ** Initial mock data *)

Definition INITIAL_USERS : list User.t :=
  [ User.mk "u1" "Alice Test" "user1@test.com" (Some "password123")
      "https://picsum.photos/seed/u1/200" false (Some "Love coding!");
    User.mk "u2" "Bob Test" "user2@test.com" (Some "password123")
      "https://picsum.photos/seed/u2/200" false (Some "Python enthusiast");
    User.mk "u3" "Charlie Test" "user3@test.com" (Some "password123")
      "https://picsum.photos/seed/u3/200" false None;
    User.mk "u4" "Dave Test" "user4@test.com" (Some "password123")
      "https://picsum.photos/seed/u4/200" false None;
    User.mk "u5" "Eve Test" "user5@test.com" (Some "password123")
      "https://picsum.photos/seed/u5/200" false None ].

Definition INITIAL_ROOMS : list Room.t :=
  [ Room.mk "r1" "General Lobby" false None "system" (Some "Welcome everyone!");
    Room.mk "r2" "Python Devs" false None "system" (Some "Talk about FastAPI");
    Room.mk "r3" "Secret Club" true (Some "123") "u1"
      (Some "Shhh... Password is 123") ].

(** ** Local-storage helpers *)

Inductive key := chat_users | chat_rooms | chat_messages.

Definition data (k : key) : Type :=
  match k with
  | chat_users => list User.t
  | chat_rooms => list Room.t
  | chat_messages => list Message.t
  end.

Definition getItem (k : key) (s : LocalStorage) : option (data k) :=
  match k with
  | chat_users => item_users s
  | chat_rooms => item_rooms s
  | chat_messages => item_messages s
  end.

Definition setItem (k : key) : data k -> LocalStorage -> LocalStorage :=
  match k with
  | chat_users => fun v s => mkStorage (Some v) (item_rooms s) (item_messages s)
  | chat_rooms => fun v s => mkStorage (item_users s) (Some v) (item_messages s)
  | chat_messages => fun v s => mkStorage (item_users s) (item_rooms s) (Some v)
  end.

Definition getStorage (k : key) (init : data k) : Cmd (data k) :=
  fun w =>
    match getItem k (storage w) with
    | Some stored => (Ok stored, w)
    | None => (Ok init, set_storage (setItem k init (storage w)) w)
    end.

Definition setStorage (k : key) (v : data k) : Cmd unit :=
  fun w => (Ok tt, set_storage (setItem k v (storage w)) w).

(** [Date.now()] *)
Definition Date_now : Cmd Z :=
  fun w => (Ok (clock w (ticks w)), set_ticks (S (ticks w)) w).

(** Number to string, as a template literal renders an integer. *)
Definition show (z : Z) : string := NilZero.string_of_int (Z.to_int z).

(** ** Simulation of WebSocket events *)

Definition has_lid (n : nat) (ls : list Listener) : bool :=
  existsb (fun l => Nat.eqb (lid l) n) ls.

(** [listeners.add(callback)] *)
Definition subscribeToSocket (callback : Listener) : Cmd unit :=
  fun w =>
    (Ok tt,
     if has_lid (lid callback) (listeners w) then w
     else set_listeners (listeners w ++ [callback]) w).

(** The function [subscribeToSocket] returns:
    [listeners.delete(callback)] *)
Definition unsubscribe (callback : Listener) : Cmd unit :=
  fun w =>
    (Ok tt,
     set_listeners
       (filter (fun l => negb (Nat.eqb (lid l) (lid callback))) (listeners w)) w).

(** [setTimeout(() => ..., 100)]: the delivery is queued. *)
Definition broadcast (e : Event) : Cmd unit :=
  fun w => (Ok tt, set_timers (timers w ++ [e]) w).

(** [listeners.forEach(l => l({ type, payload }))]: callbacks run in
    insertion order; an exception leaves [forEach]. *)
Fixpoint forEach (ls : list Listener) (e : Event) : Cmd unit :=
  match ls with
  | [] => ret tt
  | l :: rest =>
      (fun w => (run l e, set_delivered (delivered w ++ [(lid l, e)]) w)) ;;
      forEach rest e
  end.

(** The oldest pending timeout fires. *)
Definition fire : Cmd unit :=
  fun w =>
    match timers w with
    | [] => (Ok tt, w)
    | e :: rest => forEach (listeners w) e (set_timers rest w)
    end.

(** ** The mock backend *)

Definition same_password (stored : option string) (given : string) : bool :=
  match stored with
  | Some p => String.eqb p given
  | None => false
  end.

(** [u => u.email === email && u.password === password] *)
Definition matches (email password : string) (u : User.t) : bool :=
  String.eqb (User.email u) email && same_password (User.password u) password.

(** Assignment to a property of the object [find] returned: the array
    holds that same object, so its first element satisfying [p] changes. *)
Fixpoint mutateFirst {A} (p : A -> bool) (f : A -> A) (l : list A) : list A :=
  match l with
  | [] => []
  | x :: rest => if p x then f x :: rest else x :: mutateFirst p f rest
  end.

Definition login (email password : string) : Cmd User.t :=
  users <- getStorage chat_users INITIAL_USERS ;;
  match find (matches email password) users with
  | None => throw (Err "Invalid credentials")
  | Some found =>
      (* user.isOnline = true *)
      let user := User.set_isOnline true found in
      let users := mutateFirst (matches email password) (User.set_isOnline true) users in
      let updatedUsers :=
        map (fun u => if String.eqb (User.id u) (User.id user) then user else u) users in
      setStorage chat_users updatedUsers ;;
      broadcast (USER_UPDATE user) ;;
      ret user
  end.

Definition register (name email password : string) : Cmd User.t :=
  users <- getStorage chat_users INITIAL_USERS ;;
  match find (fun u => String.eqb (User.email u) email) users with
  | Some _ => throw (Err "Email already exists")
  | None =>
      t1 <- Date_now ;;
      t2 <- Date_now ;;
      let newUser :=
        User.mk ("u" ++ show t1) name email (Some password)
          ("https://picsum.photos/seed/" ++ show t2 ++ "/200") true None in
      let updatedUsers := (users ++ [newUser])%list in
      setStorage chat_users updatedUsers ;;
      broadcast (USER_JOINED newUser) ;;
      ret newUser
  end.

Definition logout (userId : string) : Cmd unit :=
  users <- getStorage chat_users INITIAL_USERS ;;
  let updatedUsers :=
    map (fun u => if String.eqb (User.id u) userId
                  then User.set_isOnline false u else u) users in
  setStorage chat_users updatedUsers ;;
  broadcast (USER_LEFT userId).

(** The variable [updatedUser] ends up holding the merge of the last
    user whose id matches. *)
Definition lastUpdated (userId : string) (updates : User.partial)
    (users : list User.t) : option User.t :=
  fold_left
    (fun acc u => if String.eqb (User.id u) userId
                  then Some (User.merge u updates) else acc)
    users None.

Definition updateProfile (userId : string) (updates : User.partial)
    : Cmd (option User.t) :=
  users <- getStorage chat_users INITIAL_USERS ;;
  let updatedUser := lastUpdated userId updates users in
  let newUsers :=
    map (fun u => if String.eqb (User.id u) userId
                  then User.merge u updates else u) users in
  setStorage chat_users newUsers ;;
  match updatedUser with
  | Some u => broadcast (USER_UPDATE u)
  | None => ret tt
  end ;;
  ret updatedUser.

Definition getRooms : Cmd (list Room.t) :=
  getStorage chat_rooms INITIAL_ROOMS.

Definition createRoom (room : Room.spec) : Cmd Room.t :=
  rooms <- getStorage chat_rooms INITIAL_ROOMS ;;
  t <- Date_now ;;
  let newRoom := Room.withId room ("r" ++ show t) in
  setStorage chat_rooms (rooms ++ [newRoom])%list ;;
  broadcast (ROOM_CREATED newRoom) ;;
  ret newRoom.

Definition deleteRoom (roomId : string) : Cmd unit :=
  rooms <- getStorage chat_rooms INITIAL_ROOMS ;;
  let updatedRooms :=
    filter (fun r => negb (String.eqb (Room.id r) roomId)) rooms in
  setStorage chat_rooms updatedRooms ;;
  broadcast (ROOM_DELETED roomId).

Definition getUsers : Cmd (list User.t) :=
  getStorage chat_users INITIAL_USERS.

Definition getMessages (roomId : string) : Cmd (list Message.t) :=
  allMessages <- getStorage chat_messages [] ;;
  ret (filter (fun m => String.eqb (Message.roomId m) roomId) allMessages).

Definition sendMessage (message : Message.spec) : Cmd Message.t :=
  allMessages <- getStorage chat_messages [] ;;
  t1 <- Date_now ;;
  t2 <- Date_now ;;
  let newMessage := Message.stamp message ("m" ++ show t1) t2 in
  setStorage chat_messages (allMessages ++ [newMessage])%list ;;
  broadcast (NEW_MESSAGE newMessage) ;;
  ret newMessage.

(** What a load of each collection returns in a given world. *)
Definition users_of (w : World) : list User.t :=
  match item_users (storage w) with Some l => l | None => INITIAL_USERS end.
Definition rooms_of (w : World) : list Room.t :=
  match item_rooms (storage w) with Some l => l | None => INITIAL_ROOMS end.
Definition messages_of (w : World) : list Message.t :=
  match item_messages (storage w) with Some l => l | None => [] end.

(** A process that starts on empty storage, with no subscriber. *)
Definition initWorld (c : nat -> Z) : World :=
  mkWorld (mkStorage None None None) [] [] [] c 0%nat.

(** ** The chat view ([src/components/ChatApp.tsx]) *)

Record UI := mkUI {
  currentUser : User.t;             (* prop *)
  innerWidth : Z;                   (* window.innerWidth *)
  activeRoomId : option string;
  messages : list Message.t;
  sidebarOpen : bool;
  showPasswordModal : bool;
  pendingRoom : option Room.t;
  joinPassword : string;
  joinError : string
}.

Definition setActiveRoomId (v : option string) (u : UI) : UI :=
  mkUI (currentUser u) (innerWidth u) v (messages u) (sidebarOpen u)
       (showPasswordModal u) (pendingRoom u) (joinPassword u) (joinError u).
Definition setMessages (v : list Message.t) (u : UI) : UI :=
  mkUI (currentUser u) (innerWidth u) (activeRoomId u) v (sidebarOpen u)
       (showPasswordModal u) (pendingRoom u) (joinPassword u) (joinError u).
Definition setSidebarOpen (v : bool) (u : UI) : UI :=
  mkUI (currentUser u) (innerWidth u) (activeRoomId u) (messages u) v
       (showPasswordModal u) (pendingRoom u) (joinPassword u) (joinError u).
Definition setShowPasswordModal (v : bool) (u : UI) : UI :=
  mkUI (currentUser u) (innerWidth u) (activeRoomId u) (messages u) (sidebarOpen u)
       v (pendingRoom u) (joinPassword u) (joinError u).
Definition setPendingRoom (v : option Room.t) (u : UI) : UI :=
  mkUI (currentUser u) (innerWidth u) (activeRoomId u) (messages u) (sidebarOpen u)
       (showPasswordModal u) v (joinPassword u) (joinError u).
Definition setJoinPassword (v : string) (u : UI) : UI :=
  mkUI (currentUser u) (innerWidth u) (activeRoomId u) (messages u) (sidebarOpen u)
       (showPasswordModal u) (pendingRoom u) v (joinError u).
Definition setJoinError (v : string) (u : UI) : UI :=
  mkUI (currentUser u) (innerWidth u) (activeRoomId u) (messages u) (sidebarOpen u)
       (showPasswordModal u) (pendingRoom u) (joinPassword u) v.

Definition is_active (roomId : string) (u : UI) : bool :=
  match activeRoomId u with
  | Some a => String.eqb roomId a
  | None => false
  end.

Definition executeJoinRoom (roomId : string) (u : UI) : Cmd UI :=
  let u := setActiveRoomId (Some roomId) u in
  msgs <- getMessages roomId ;;
  let u := setMessages msgs u in
  ret (if innerWidth u <? 768 then setSidebarOpen false u else u).

Definition handleJoinRoom (room : Room.t) (u : UI) : Cmd UI :=
  if is_active (Room.id room) u then ret u
  else if Room.isPrivate room then
    ret (setShowPasswordModal true
           (setJoinError "" (setJoinPassword "" (setPendingRoom (Some room) u))))
  else executeJoinRoom (Room.id room) u.

Definition closePasswordModal (u : UI) : UI :=
  setJoinError "" (setJoinPassword "" (setPendingRoom None (setShowPasswordModal false u))).

(** [joinPassword === pendingRoom.password] *)
Definition handleJoinPrivateSubmit (u : UI) : Cmd UI :=
  match pendingRoom u with
  | None => ret u
  | Some pending =>
      if same_password (Room.password pending) (joinPassword u) then
        u <- executeJoinRoom (Room.id pending) u ;;
        ret (closePasswordModal u)
      else ret (setJoinError "Incorrect password" u)
  end.

(** The trash button of a room row is rendered under
    [currentUser.id === room.createdBy]. *)
Definition showsDeleteControl (u : UI) (room : Room.t) : bool :=
  String.eqb (User.id (currentUser u)) (Room.createdBy room).

(** [confirmed] is the answer to [window.confirm]; the [catch] branch
    logs and alerts. *)
Definition handleDeleteRoom (confirmed : bool) (roomId : string) (u : UI) : Cmd UI :=
  if negb confirmed then ret u
  else try_catch (deleteRoom roomId ;; ret u) (fun _ => ret u).

(** The stage of a join attempt on [room], read off the view. *)
Inductive Gate := Idle | CredentialChallenge | Rejected | Joined.

Definition gate (room : Room.t) (u : UI) : Gate :=
  if is_active (Room.id room) u then Joined
  else
    match pendingRoom u with
    | Some pending =>
        if showPasswordModal u && String.eqb (Room.id pending) (Room.id room) then
          if String.eqb (joinError u) "" then CredentialChallenge else Rejected
        else Idle
    | None => Idle
    end.

(** ** Runs of the system *)

(** What the callers and the timer can do to the world. *)
Inductive Action :=
| Login (email password : string)
| Register (name email password : string)
| Logout (userId : string)
| UpdateProfile (userId : string) (updates : User.partial)
| GetRooms
| CreateRoom (room : Room.spec)
| DeleteRoom (roomId : string)
| GetUsers
| GetMessages (roomId : string)
| SendMessage (message : Message.spec)
| Subscribe (callback : Listener)
| Unsubscribe (callback : Listener)
| Fire.

Definition perform (a : Action) (w : World) : World :=
  match a with
  | Login email password => after (login email password) w
  | Register name email password => after (register name email password) w
  | Logout userId => after (logout userId) w
  | UpdateProfile userId updates => after (updateProfile userId updates) w
  | GetRooms => after getRooms w
  | CreateRoom room => after (createRoom room) w
  | DeleteRoom roomId => after (deleteRoom roomId) w
  | GetUsers => after getUsers w
  | GetMessages roomId => after (getMessages roomId) w
  | SendMessage message => after (sendMessage message) w
  | Subscribe callback => after (subscribeToSocket callback) w
  | Unsubscribe callback => after (unsubscribe callback) w
  | Fire => after fire w
  end.

Definition runActions (actions : list Action) (w : World) : World :=
  fold_left (fun w a => perform a w) actions w.

(** The number a message id [m<digits>] carries. *)
Definition idNumber (id : string) : option Z :=
  match id with
  | String "m"%char digits => option_map Z.of_int (NilZero.int_of_string digits)
  | _ => None
  end.

Definition id_lt (a b : Message.t) : Prop :=
  match idNumber (Message.id a), idNumber (Message.id b) with
  | Some x, Some y => x < y
  | _, _ => False
  end.

Definition timestamp_lt (a b : Message.t) : Prop :=
  Message.timestamp a < Message.timestamp b.

(** The reading counts at which the [sendMessage] calls of a run start:
    reading number [ticks w] gives the id, the next one the timestamp. *)
Fixpoint idReadings (actions : list Action) (w : World) : list nat :=
  match actions with
  | [] => []
  | SendMessage message :: rest => ticks w :: idReadings rest (perform (SendMessage message) w)
  | a :: rest => idReadings rest (perform a w)
  end.

(** Along [ks], the clock values read for ids strictly increase, and so
    do the values read for timestamps. *)
Definition spaced (c : nat -> Z) (ks : list nat) : Prop :=
  StronglySorted (fun i j => c i < c j /\ c (S i) < c (S j)) ks.

(** The message was stamped by the readings [k] and [k + 1] of [c]. *)
Definition stamped (c : nat -> Z) (k : nat) (m : Message.t) : Prop :=
  Message.id m = "m" ++ show (c k) /\ Message.timestamp m = c (S k).

(** ** Vocabulary of the statements *)

(** World updates the command equations are written with. *)
Definition put (k : key) (v : data k) (w : World) : World :=
  set_storage (setItem k v (storage w)) w.
Definition publish (e : Event) (w : World) : World :=
  set_timers (timers w ++ [e]) w.
Definition tick (n : nat) (w : World) : World :=
  set_ticks (n + ticks w) w.

(** Some stored user has this email. *)
Definition email_used (email : string) (w : World) : Prop :=
  exists u, In u (users_of w) /\ User.email u = email.

Definition credentials_match (email password : string) (u : User.t) : Prop :=
  User.email u = email /\ User.password u = Some password.

(** The invocations [forEach] makes when every subscriber in [ls] is
    called with [e]. *)
Definition receipts (e : Event) (ls : list Listener) : list (nat * Event) :=
  map (fun l => (lid l, e)) ls.

(** A join attempt on a room: click the room, type a credential in the
    modal, submit. *)
Definition joinAttempt (room : Room.t) (typed : string) (view : UI) : Cmd UI :=
  u <- handleJoinRoom room view ;;
  handleJoinPrivateSubmit (setJoinPassword typed u).

Definition sendThree (s1 s2 s3 : Message.spec) : Cmd (list Message.t) :=
  m1 <- sendMessage s1 ;;
  m2 <- sendMessage s2 ;;
  m3 <- sendMessage s3 ;;
  ret [m1; m2; m3].

(** ** Sample values *)

Definition bob : User.t :=
  User.mk "u2" "Bob Test" "user2@test.com" (Some "password123")
    "https://picsum.photos/seed/u2/200" false (Some "Python enthusiast").
Definition secretClub : Room.t :=
  Room.mk "r3" "Secret Club" true (Some "123") "u1" (Some "Shhh... Password is 123").
Definition freshView (user : User.t) : UI :=
  mkUI user 1024 None [] false false None "" "".

(** Empty storage, no subscriber, and a clock stopped at one instant. *)
Definition freshWorld : World := initWorld (fun _ => 1700000000000).

Definition thrower : Listener := mkListener 1 (fun _ => Throw (Err "boom")).
Definition quiet : Listener := mkListener 2 (fun _ => Ok tt).

(** Two subscriptions, then one broadcast still waiting for its timeout. *)
Definition pendingDelivery (first second : Listener) : World :=
  after (subscribeToSocket first ;; subscribeToSocket second ;;
         broadcast (ROOM_DELETED "r1")) freshWorld.

Definition vault : Room.spec :=
  Room.mkSpec "Vault" true (Some "") "u1" (Some "New custom room").
Definition stray : Message.spec :=
  Message.mkSpec "r404" "u1" "Alice Test" "https://picsum.photos/seed/u1/200" "" text.

Definition hello (roomId : string) : Message.spec :=
  Message.mkSpec roomId "u1" "Alice Test" "https://picsum.photos/seed/u1/200" "hi" text.

Definition lobbyLog : list Message.t :=
  [ Message.stamp (hello "r3") "m10" 11; Message.stamp (hello "r1") "m12" 13 ].
Definition lobbyWorld : World :=
  mkWorld (mkStorage None None (Some lobbyLog)) [] [] [] (fun _ => 1700000000000) 0%nat.

(** Three sends within one millisecond. *)
Definition burstWorld : World :=
  runActions [SendMessage (hello "r1"); SendMessage (hello "r1");
              SendMessage (hello "r1")]
    freshWorld.

(** A millisecond clock under which the two readings of one call agree
    and successive calls are a millisecond apart, and a run under it. *)
Definition steadyClock (n : nat) : Z := 1700000000000 + Z.of_nat (Nat.div2 n).
Definition busyDay : list Action :=
  [SendMessage (hello "r1"); Login "user1@test.com" "password123";
   SendMessage (hello "r2"); DeleteRoom "r2"; SendMessage (hello "r1")].

(** ** More of the chat view ([src/components/ChatApp.tsx]) *)

(** The state cells of the component that [UI] leaves out. *)
Module Panel.
Record t := mk {
  rooms : list Room.t;
  users : list User.t;
  inputMessage : string;
  selectedFiles : nat;              (* fileInputRef.current?.files?.length, 0 when absent *)
  showCreateRoom : bool;
  newRoomName : string;
  isNewRoomPrivate : bool;
  newRoomPassword : string
}.

Definition setRooms (v : list Room.t) (p : t) : t :=
  mk v (users p) (inputMessage p) (selectedFiles p) (showCreateRoom p)
     (newRoomName p) (isNewRoomPrivate p) (newRoomPassword p).
Definition setUsers (v : list User.t) (p : t) : t :=
  mk (rooms p) v (inputMessage p) (selectedFiles p) (showCreateRoom p)
     (newRoomName p) (isNewRoomPrivate p) (newRoomPassword p).
Definition setInputMessage (v : string) (p : t) : t :=
  mk (rooms p) (users p) v (selectedFiles p) (showCreateRoom p)
     (newRoomName p) (isNewRoomPrivate p) (newRoomPassword p).

(** The four setters that close and clear the room form. *)
Definition closeCreateRoom (p : t) : t :=
  mk (rooms p) (users p) (inputMessage p) (selectedFiles p) false "" false "".

Definition initial : t := mk [] [] "" 0%nat false "" false "".
End Panel.

(** [!s] on a string: only the empty string is falsy. *)
Definition falsy (s : string) : bool := String.eqb s "".

(** [a || b] on strings. *)
Definition orElse (a b : string) : string := if falsy a then b else a.

(** [err.message] *)
Definition message_of (e : Error) : string := match e with Err m => m end.

(** Calling a prop that was not passed. *)
Definition notAFunction (name : string) : Error := Err (name ++ " is not a function").

Module ChatApp.

(** [loadData]: both collections are read, then both cells are set. *)
Definition loadData (p : Panel.t) : Cmd Panel.t :=
  loadedRooms <- getRooms ;;
  loadedUsers <- getUsers ;;
  ret (Panel.setUsers loadedUsers (Panel.setRooms loadedRooms p)).

(** The callback the component subscribes.  [hasOnUserUpdate] tells
    whether the parent passed the [onUserUpdate] prop; the state setters
    called before an exception still take effect.  [activeRoomIdRef] is
    kept equal to [activeRoomId] by an effect, and is read as such.  The
    [alert] of [ROOM_DELETED] shows a notice and changes no state. *)
Definition onSocketEvent (hasOnUserUpdate : bool) (event : Event)
    (v : UI * Panel.t) : Result unit * (UI * Panel.t) :=
  let (u, p) := v in
  match event with
  | NEW_MESSAGE payload =>
      (Ok tt,
       (if is_active (Message.roomId payload) u
        then setMessages (messages u ++ [payload]) u else u, p))
  | ROOM_CREATED payload =>
      (Ok tt, (u, Panel.setRooms (Panel.rooms p ++ [payload]) p))
  | ROOM_DELETED roomId =>
      (Ok tt,
       (if is_active roomId u then setActiveRoomId None u else u,
        Panel.setRooms
          (filter (fun r => negb (String.eqb (Room.id r) roomId)) (Panel.rooms p)) p))
  | USER_UPDATE payload =>
      (if String.eqb (User.id payload) (User.id (currentUser u))
       then if hasOnUserUpdate then Ok tt else Throw (notAFunction "onUserUpdate")
       else Ok tt,
       (u,
        Panel.setUsers
          (map (fun x => if String.eqb (User.id x) (User.id payload) then payload else x)
               (Panel.users p)) p))
  | USER_JOINED payload =>
      (Ok tt,
       (u,
        if existsb (fun x => String.eqb (User.id x) (User.id payload)) (Panel.users p)
        then p else Panel.setUsers (Panel.users p ++ [payload]) p))
  | USER_LEFT userId =>
      (Ok tt,
       (u,
        Panel.setUsers
          (map (fun x => if String.eqb (User.id x) userId
                         then User.set_isOnline false x else x) (Panel.users p)) p))
  end.

(** The [onChange] of the credential input of the modal. *)
Definition typeJoinPassword (value : string) (u : UI) : UI :=
  setJoinError "" (setJoinPassword value u).

(** [!activeRoomId] *)
Definition noActiveRoom (u : UI) : bool :=
  match activeRoomId u with
  | None => true
  | Some a => falsy a
  end.

(** [trim] stands for [String.prototype.trim].  Past the guard the active
    room id is a non-empty string; the [catch] branch only logs. *)
Definition handleSendMessage (trim : string -> string) (v : UI * Panel.t)
    : Cmd (UI * Panel.t) :=
  let (u, p) := v in
  if (falsy (trim (Panel.inputMessage p)) && Nat.eqb (Panel.selectedFiles p) 0)
     || noActiveRoom u
  then ret v
  else
    match activeRoomId u with
    | None => ret v
    | Some a =>
        try_catch
          (sendMessage
             (Message.mkSpec a (User.id (currentUser u)) (User.name (currentUser u))
                (User.avatar (currentUser u)) (Panel.inputMessage p) text) ;;
           ret (u, Panel.setInputMessage "" p))
          (fun _ => ret v)
    end.

(** The submit handler of the room form; the [catch] branch only alerts. *)
Definition createRoom (trim : string -> string) (v : UI * Panel.t)
    : Cmd (UI * Panel.t) :=
  let (u, p) := v in
  if falsy (trim (Panel.newRoomName p)) then ret v
  else
    try_catch
      (createRoom
         (Room.mkSpec (Panel.newRoomName p) (Panel.isNewRoomPrivate p)
            (if Panel.isNewRoomPrivate p then Some (Panel.newRoomPassword p) else None)
            (User.id (currentUser u)) (Some "New custom room")) ;;
       ret (u, Panel.closeCreateRoom p))
      (fun _ => ret v).

(** [email.split('@')[0]]: what precedes the first [@]. *)
Fixpoint firstPiece (s : string) : string :=
  match s with
  | EmptyString => EmptyString
  | String c rest => if Ascii.eqb c "@"%char then EmptyString else String c (firstPiece rest)
  end.

Definition maskEmail (email : string) : string := firstPiece email ++ "@*****".

End ChatApp.

(** ** The profile modal *)

Module UserProfileModal.

(** [updates] of [handleSave]: name and avatar always, the password only
    when the field does not trim to the empty string. *)
Definition updatesOf (trim : string -> string) (name avatar password : string)
    : User.partial :=
  User.mkPartial None (Some name) None
    (if falsy (trim password) then None else Some (Some password))
    (Some avatar) None None.

(** Returns whether [onClose] was called. *)
Definition handleSave (trim : string -> string) (user : User.t)
    (name avatar password : string) : Cmd bool :=
  try_catch
    (updateProfile (User.id user) (updatesOf trim name avatar password) ;;
     ret true)
    (fun _ => ret false).

End UserProfileModal.

(** ** The application shell ([src/App.tsx]) *)

Module App.

Inductive View := LOGIN | REGISTER.

(** The state cells of [App], and the [chat_current_user] key of local
    storage. *)
Record t := mk {
  user : option User.t;
  view : View;
  email : string;
  password : string;
  name : string;
  loading : bool;
  error : string;
  chat_current_user : option User.t
}.

Definition setUser (v : option User.t) (a : t) : t :=
  mk v (view a) (email a) (password a) (name a) (loading a) (error a)
     (chat_current_user a).
Definition setEmail (v : string) (a : t) : t :=
  mk (user a) (view a) v (password a) (name a) (loading a) (error a)
     (chat_current_user a).
Definition setPassword (v : string) (a : t) : t :=
  mk (user a) (view a) (email a) v (name a) (loading a) (error a)
     (chat_current_user a).
Definition setLoading (v : bool) (a : t) : t :=
  mk (user a) (view a) (email a) (password a) (name a) v (error a)
     (chat_current_user a).
Definition setError (v : string) (a : t) : t :=
  mk (user a) (view a) (email a) (password a) (name a) (loading a) v
     (chat_current_user a).
Definition setItem_current_user (v : option User.t) (a : t) : t :=
  mk (user a) (view a) (email a) (password a) (name a) (loading a) (error a) v.

(** A page load: fresh cells, then the effect that restores the saved
    user. *)
Definition mount (saved : option User.t) : t :=
  let a := mk None LOGIN "" "" "" false "" saved in
  match saved with
  | Some savedUser => setUser (Some savedUser) a
  | None => a
  end.

Definition handleLogin (a : t) : Cmd t :=
  let a := setError "" (setLoading true a) in
  a <- try_catch
         (loggedInUser <- login (email a) (password a) ;;
          ret (setItem_current_user (Some loggedInUser) (setUser (Some loggedInUser) a)))
         (fun err => ret (setError (orElse (message_of err) "Login failed") a)) ;;
  ret (setLoading false a).

Definition handleRegister (a : t) : Cmd t :=
  let a := setError "" (setLoading true a) in
  a <- try_catch
         (newUser <- register (name a) (email a) (password a) ;;
          ret (setItem_current_user (Some newUser) (setUser (Some newUser) a)))
         (fun err => ret (setError (orElse (message_of err) "Registration failed") a)) ;;
  ret (setLoading false a).

Definition handleLogout (a : t) : Cmd t :=
  match user a with
  | Some u => logout (User.id u)
  | None => ret tt
  end ;;
  ret (setPassword "" (setEmail "" (setItem_current_user None (setUser None a)))).

(** [<ChatApp currentUser={user} onLogout={handleLogout} />]: the view a
    logged-in user gets.  [onUserUpdate] is not among the props. *)
Definition chatProps_hasOnUserUpdate : bool := false.

End App.

(** ** Vocabulary of the further statements *)

Definition isRead (a : Action) : bool :=
  match a with
  | GetRooms | GetUsers | GetMessages _ => true
  | _ => false
  end.

(** Profile updates that set one field. *)
Definition renameTo (name : string) : User.partial :=
  User.mkPartial None (Some name) None None None None None.
Definition passwordTo (password : string) : User.partial :=
  User.mkPartial None None None (Some (Some password)) None None None.

(** The stored messages of a room, in storage order. *)
Definition listing (roomId : string) (w : World) : list Message.t :=
  filter (fun m => String.eqb (Message.roomId m) roomId) (messages_of w).

(** The subscribers [forEach] calls with [e]: all up to and including
    the first that throws. *)
Fixpoint called (e : Event) (ls : list Listener) : list Listener :=
  match ls with
  | [] => []
  | l :: rest =>
      l :: match run l e with
           | Ok _ => called e rest
           | Throw _ => []
           end
  end.

(** What [forEach] ends with: the first exception, if any. *)
Fixpoint outcome (e : Event) (ls : list Listener) : Result unit :=
  match ls with
  | [] => Ok tt
  | l :: rest =>
      match run l e with
      | Ok _ => outcome e rest
      | Throw err => Throw err
      end
  end.

Definition isSocketAction (a : Action) : bool :=
  match a with
  | Subscribe _ | Unsubscribe _ | Fire => true
  | _ => false
  end.

(** The event type each command broadcasts. *)
Definition announces (a : Action) (e : Event) : bool :=
  match a, e with
  | Login _ _, USER_UPDATE _ => true
  | UpdateProfile _ _, USER_UPDATE _ => true
  | Register _ _ _, USER_JOINED _ => true
  | Logout _, USER_LEFT _ => true
  | CreateRoom _, ROOM_CREATED _ => true
  | DeleteRoom _, ROOM_DELETED _ => true
  | SendMessage _, NEW_MESSAGE _ => true
  | _, _ => false
  end.

(** Credentials typed and submitted one after the other while the modal
    is open. *)
Fixpoint submitEach (typed : list string) (u : UI) : Cmd UI :=
  match typed with
  | [] => ret u
  | value :: rest =>
      u <- handleJoinPrivateSubmit (ChatApp.typeJoinPassword value u) ;;
      submitEach rest u
  end.

(** What can happen to a mounted chat view. *)
Inductive Gesture :=
| ClickRoom (room : Room.t)
| TypeJoinPassword (value : string)
| SubmitJoinPassword
| CloseJoinModal
| ClickDelete (confirmed : bool) (roomId : string)
| SubmitMessage
| SubmitRoomForm
| Incoming (event : Event).

(** The view and the world an event handler leaves.  A handler that
    throws keeps the state it had set. *)
Definition react (trim : string -> string) (hasOnUserUpdate : bool) (g : Gesture)
    (v : UI * Panel.t) (w : World) : (UI * Panel.t) * World :=
  let settle (c : Cmd (UI * Panel.t)) :=
    match c w with
    | (Ok v', w') => (v', w')
    | (Throw _, w') => (v, w')
    end in
  let onUI (c : Cmd UI) := settle (u <- c ;; ret (u, snd v)) in
  match g with
  | ClickRoom room => onUI (handleJoinRoom room (fst v))
  | TypeJoinPassword value => ((ChatApp.typeJoinPassword value (fst v), snd v), w)
  | SubmitJoinPassword => onUI (handleJoinPrivateSubmit (fst v))
  | CloseJoinModal => ((closePasswordModal (fst v), snd v), w)
  | ClickDelete confirmed roomId => onUI (handleDeleteRoom confirmed roomId (fst v))
  | SubmitMessage => settle (ChatApp.handleSendMessage trim v)
  | SubmitRoomForm => settle (ChatApp.createRoom trim v)
  | Incoming event => (snd (ChatApp.onSocketEvent hasOnUserUpdate event v), w)
  end.

(** Every message the view holds belongs to its active room. *)
Definition coherent (u : UI) : Prop :=
  forall r, activeRoomId u = Some r ->
            Forall (fun m => Message.roomId m = r) (messages u).

(** The view after its subscriber has handled [events], oldest first. *)
Definition handleAll (hasOnUserUpdate : bool) (events : list Event)
    (v : UI * Panel.t) : UI * Panel.t :=
  fold_left (fun v e => snd (ChatApp.onSocketEvent hasOnUserUpdate e v)) events v.

(** The view shows what the store holds. *)
Definition synced (v : UI * Panel.t) (w : World) : Prop :=
  Panel.rooms (snd v) = rooms_of w
  /\ Panel.users (snd v) = users_of w
  /\ (forall r, activeRoomId (fst v) = Some r -> messages (fst v) = listing r w).

(** The view will show what the store holds once it has handled the
    broadcasts still waiting for their timeout. *)
Definition settled (hasOnUserUpdate : bool) (v : UI * Panel.t) (w : World) : Prop :=
  synced (handleAll hasOnUserUpdate (timers w) v) w.

(** A backend action next to a subscribed view: a firing timeout hands
    its event to the view. *)
Definition stepWithView (hasOnUserUpdate : bool) (a : Action)
    (vw : (UI * Panel.t) * World) : (UI * Panel.t) * World :=
  let (v, w) := vw in
  match a, timers w with
  | Fire, e :: _ => (snd (ChatApp.onSocketEvent hasOnUserUpdate e v), perform Fire w)
  | _, _ => (v, perform a w)
  end.

(** The two commands whose event the view can apply differently from the
    store: a registration whose clock-made id is already taken, and a
    profile update that rewrites the id or meets several users under one
    id. *)
Definition tracked (a : Action) (w : World) : Prop :=
  match a with
  | Register _ email _ =>
      email_used email w
      \/ forall x, In x (users_of w) -> User.id x <> "u" ++ show (clock w (ticks w))
  | UpdateProfile _ updates =>
      User.p_id updates = None /\ NoDup (map User.id (users_of w))
  | _ => True
  end.

Definition runWithView (hasOnUserUpdate : bool) (actions : list Action)
    (vw : (UI * Panel.t) * World) : (UI * Panel.t) * World :=
  fold_left (fun vw a => stepWithView hasOnUserUpdate a vw) actions vw.

Fixpoint allTracked (hasOnUserUpdate : bool) (actions : list Action)
    (vw : (UI * Panel.t) * World) : Prop :=
  match actions with
  | [] => True
  | a :: rest =>
      tracked a (snd vw)
      /\ allTracked hasOnUserUpdate rest (stepWithView hasOnUserUpdate a vw)
  end.

(** The panel right after [loadData] on the seeded store. *)
Definition loadedPanel : Panel.t :=
  Panel.setUsers INITIAL_USERS (Panel.setRooms INITIAL_ROOMS Panel.initial).

(** Whether a string holds an [@]. *)
Fixpoint hasAt (s : string) : bool :=
  match s with
  | EmptyString => false
  | String c rest => Ascii.eqb c "@"%char || hasAt rest
  end.

(** A stand-in for [trim] in examples: it drops leading spaces. *)
Fixpoint dropSpaces (s : string) : string :=
  match s with
  | String " "%char rest => dropSpaces rest
  | _ => s
  end.

Definition lobby : Room.t :=
  Room.mk "r1" "General Lobby" false None "system" (Some "Welcome everyone!").

Definition filledForm : Panel.t :=
  Panel.mk [] [] "" 0%nat true "Annex" false "left-over".

(** The login form filled in, on a page with no saved session. *)
Definition loginForm (email password : string) : App.t :=
  App.setPassword password (App.setEmail email (App.mount None)).

(** The sign-up form filled in. *)
Definition signUpForm : App.t :=
  App.mk None App.REGISTER "zed@test.com" "s3cret" "Zed" false "" None.

(** * Properties *)

Arguments INITIAL_USERS : simpl never.
Arguments INITIAL_ROOMS : simpl never.
Arguments show : simpl never.

(** ** Equations of the commands

    Each command is characterised as one explicit function of the world
    it starts in; the properties below are read off these equations. *)

Lemma eqb_neq_negb (a b : string) : negb (String.eqb a b) = true <-> a <> b.
Proof.
  rewrite negb_true_iff. apply String.eqb_neq.
Qed.

Lemma filter_all {A} (p : A -> bool) (l : list A) :
  (forall x, In x l -> p x = true) -> filter p l = l.
Proof.
  induction l as [|x l IH]; intros H; simpl; [reflexivity|].
  rewrite (H x (or_introl eq_refl)). f_equal. apply IH.
  intros y Hy. apply H. right. exact Hy.
Qed.

Ltac world w :=
  let us := fresh "us" in let rs := fresh "rs" in let ms := fresh "ms" in
  destruct w as [[us rs ms] ? ? ? ? ?];
  try destruct us; try destruct rs; try destruct ms.

Lemma load_users w :
  getStorage chat_users INITIAL_USERS w = (Ok (users_of w), put chat_users (users_of w) w).
Proof. world w; reflexivity. Qed.

Lemma load_rooms w :
  getStorage chat_rooms INITIAL_ROOMS w = (Ok (rooms_of w), put chat_rooms (rooms_of w) w).
Proof. world w; reflexivity. Qed.

Lemma load_messages w :
  getStorage chat_messages [] w = (Ok (messages_of w), put chat_messages (messages_of w) w).
Proof. world w; reflexivity. Qed.

Lemma deleteRoom_eq roomId w :
  deleteRoom roomId w =
  (Ok tt,
   publish (ROOM_DELETED roomId)
     (put chat_rooms
        (filter (fun r => negb (String.eqb (Room.id r) roomId)) (rooms_of w)) w)).
Proof.
  unfold deleteRoom, bind. rewrite load_rooms.
  reflexivity.
Qed.


Lemma same_password_iff stored given :
  same_password stored given = true <-> stored = Some given.
Proof.
  destruct stored as [p|]; simpl.
  - rewrite String.eqb_eq. split; congruence.
  - split; discriminate.
Qed.

Lemma matches_iff email password u :
  matches email password u = true <->
  User.email u = email /\ User.password u = Some password.
Proof.
  unfold matches. rewrite andb_true_iff, String.eqb_eq, same_password_iff. tauto.
Qed.

Lemma find_exists {A} (p : A -> bool) (l : list A) :
  (exists x, In x l /\ p x = true) -> exists y, find p l = Some y.
Proof.
  intros [x [Hin Hp]]. destruct (find p l) as [y|] eqn:E; [eauto|].
  rewrite (find_none p l E x Hin) in Hp. discriminate.
Qed.

Lemma mutateFirst_same_id (p : User.t -> bool) (f : User.t -> User.t) l found :
  (forall x, User.id (f x) = User.id x) ->
  find p l = Some found ->
  map (fun u => if String.eqb (User.id u) (User.id (f found)) then f found else u)
      (mutateFirst p f l)
  = map (fun u => if String.eqb (User.id u) (User.id found) then f found else u) l.
Proof.
  intros Hid. induction l as [|x l IH]; simpl; [discriminate|].
  destruct (p x) eqn:Hp; intros Hf.
  - injection Hf as ->. simpl. rewrite !Hid, String.eqb_refl. reflexivity.
  - simpl. rewrite IH by assumption. rewrite Hid. reflexivity.
Qed.

Lemma login_eq email password w :
  login email password w =
  match find (matches email password) (users_of w) with
  | None => (Throw InvalidCredentials, put chat_users (users_of w) w)
  | Some found =>
      let user := User.set_isOnline true found in
      (Ok user,
       publish (USER_UPDATE user)
         (put chat_users
            (map (fun u => if String.eqb (User.id u) (User.id found) then user else u)
                 (users_of w)) w))
  end.
Proof.
  unfold login, bind. rewrite load_users.
  destruct (find (matches email password) (users_of w)) as [found|] eqn:E.
  - cbv zeta. rewrite (mutateFirst_same_id _ _ _ found) by (reflexivity || assumption).
    reflexivity.
  - reflexivity.
Qed.

Lemma register_eq name email password w :
  register name email password w =
  match find (fun u => String.eqb (User.email u) email) (users_of w) with
  | Some _ => (Throw EmailTaken, put chat_users (users_of w) w)
  | None =>
      let newUser :=
        User.mk ("u" ++ show (clock w (ticks w))) name email (Some password)
          ("https://picsum.photos/seed/" ++ show (clock w (S (ticks w))) ++ "/200")
          true None in
      (Ok newUser,
       publish (USER_JOINED newUser)
         (put chat_users (users_of w ++ [newUser])%list (tick 2 w)))
  end.
Proof.
  unfold register, bind. rewrite load_users.
  destruct (find _ (users_of w)); reflexivity.
Qed.

Lemma createRoom_eq room w :
  createRoom room w =
  let newRoom := Room.withId room ("r" ++ show (clock w (ticks w))) in
  (Ok newRoom,
   publish (ROOM_CREATED newRoom)
     (put chat_rooms (rooms_of w ++ [newRoom])%list (tick 1 w))).
Proof.
  unfold createRoom, bind. rewrite load_rooms. reflexivity.
Qed.

Lemma getMessages_eq roomId w :
  getMessages roomId w =
  (Ok (filter (fun m => String.eqb (Message.roomId m) roomId) (messages_of w)),
   put chat_messages (messages_of w) w).
Proof.
  unfold getMessages, bind. rewrite load_messages. reflexivity.
Qed.

Lemma sendMessage_eq message w :
  sendMessage message w =
  let newMessage :=
    Message.stamp message ("m" ++ show (clock w (ticks w))) (clock w (S (ticks w))) in
  (Ok newMessage,
   publish (NEW_MESSAGE newMessage)
     (put chat_messages (messages_of w ++ [newMessage])%list (tick 2 w))).
Proof.
  unfold sendMessage, bind. rewrite load_messages. reflexivity.
Qed.

(** ** Message ids and timestamps *)

Lemma show_parse z : NilZero.int_of_string (show z) = Some (Z.to_int z).
Proof.
  unfold show. apply NilZero.isi; destruct z; cbn; intros H; inversion H;
    eapply Unsigned.to_uint_nonnil; eassumption.
Qed.

Lemma idNumber_show z : idNumber ("m" ++ show z) = Some z.
Proof.
  cbn [append idNumber]. rewrite show_parse. cbn [option_map].
  rewrite DecimalZ.of_to. reflexivity.
Qed.

Lemma show_inj a b : show a = show b -> a = b.
Proof.
  intros H. pose proof (idNumber_show a) as Ha. rewrite H, idNumber_show in Ha.
  congruence.
Qed.

Lemma forEach_frame e ls w :
  storage (after (forEach ls e) w) = storage w
  /\ clock (after (forEach ls e) w) = clock w
  /\ ticks (after (forEach ls e) w) = ticks w.
Proof.
  revert w. induction ls as [|l ls IH]; intros w; [repeat split|].
  unfold after in *. simpl. unfold bind. destruct (run l e).
  - rewrite !(proj1 (IH _)), !(proj1 (proj2 (IH _))), !(proj2 (proj2 (IH _))).
    repeat split.
  - repeat split.
Qed.

(** Every action but [sendMessage] leaves messages and clock alone and
    does not turn the reading count back. *)
Lemma perform_frame a w :
  (forall message, a <> SendMessage message) ->
  messages_of (perform a w) = messages_of w
  /\ clock (perform a w) = clock w
  /\ (ticks w <= ticks (perform a w))%nat.
Proof.
  intros Hs. destruct a; unfold perform, after.
  - rewrite login_eq. destruct (find _ _); cbn; auto.
  - rewrite register_eq. destruct (find _ _); cbn; auto with arith.
  - unfold logout, bind. rewrite load_users. cbn. auto.
  - unfold updateProfile, bind. rewrite load_users.
    cbn. destruct (lastUpdated _ _ _); cbn; auto.
  - unfold getRooms. rewrite load_rooms. cbn. auto.
  - rewrite createRoom_eq. cbn. auto with arith.
  - rewrite deleteRoom_eq. cbn. auto.
  - unfold getUsers. rewrite load_users. cbn. auto.
  - rewrite getMessages_eq. cbn. world w; cbn; auto.
  - exfalso. eapply Hs. reflexivity.
  - unfold subscribeToSocket. cbn. destruct (has_lid _ _); cbn; auto.
  - cbn. auto.
  - unfold fire. destruct (timers w) as [|e rest]; [cbn; auto|].
    pose proof (forEach_frame e (listeners w) (set_timers rest w)) as [F1 [F2 F3]].
    unfold after in *. unfold messages_of. rewrite F1, F2, F3. cbn. auto.
Qed.

Lemma runActions_clock actions w : clock (runActions actions w) = clock w.
Proof.
  revert w. induction actions as [|a actions IH]; intros w; [reflexivity|].
  simpl. rewrite IH. destruct a; try (apply perform_frame; discriminate).
  unfold perform, after. rewrite sendMessage_eq. reflexivity.
Qed.

(** The messages a run adds are stamped, in order, by the readings its
    [sendMessage] calls start at. *)
Lemma run_log actions w :
  exists added,
    messages_of (runActions actions w) = (messages_of w ++ added)%list
    /\ Forall2 (stamped (clock w)) (idReadings actions w) added.
Proof.
  revert w. induction actions as [|a actions IH]; intros w.
  - exists []. split; [symmetry; apply app_nil_r | constructor].
  - destruct (IH (perform a w)) as [added [Hm Hs]].
    assert (Frame : (forall message, a <> SendMessage message) ->
                    exists added,
                      messages_of (runActions (a :: actions) w)
                      = (messages_of w ++ added)%list
                      /\ Forall2 (stamped (clock w)) (idReadings actions (perform a w))
                           added).
    { intros Ha. destruct (perform_frame a w Ha) as [Fm [Fc _]].
      exists added. cbn [runActions fold_left]. fold (runActions actions (perform a w)).
      rewrite Hm, Fm. rewrite Fc in Hs. auto. }
    destruct a; try (apply Frame; discriminate).
    clear Frame. cbn [idReadings runActions fold_left].
    fold (runActions actions (perform (SendMessage message) w)).
    rewrite Hm. unfold perform, after in *. rewrite sendMessage_eq in *.
    cbv zeta in *. cbn [snd] in *.
    eexists (_ :: added). split.
    + cbn [messages_of publish put tick set_timers set_storage set_ticks storage
           setItem item_messages]. rewrite <- app_assoc. reflexivity.
    + constructor; [split; reflexivity | exact Hs].
Qed.

(** Messages stamped by spaced readings have distinct, increasing ids
    and increasing timestamps. *)
Lemma stamped_spaced c ks msgs :
  Forall2 (stamped c) ks msgs ->
  spaced c ks ->
  NoDup (map Message.id msgs)
  /\ StronglySorted id_lt msgs
  /\ StronglySorted timestamp_lt msgs.
Proof.
  unfold spaced. intros H2. induction H2 as [|k m ks msgs [Hid Hts] H2 IH]; intros Hs.
  - repeat split; constructor.
  - inversion Hs as [|? ? Hs' Hk]; subst.
    destruct (IH Hs') as [Hnd [Hi Ht]].
    assert (Hall : Forall (fun m' => id_lt m m' /\ timestamp_lt m m') msgs).
    { clear IH Hnd Hi Ht Hs Hs'. induction H2 as [|k' m' ks msgs [Hid' Hts'] H2 IH'].
      - constructor.
      - inversion Hk as [|? ? [Hlt1 Hlt2] Hk']; subst. constructor; [|auto].
        unfold id_lt, timestamp_lt. rewrite Hid, Hid', !idNumber_show, Hts, Hts'.
        split; assumption. }
    split; [|split].
    + simpl. constructor; [|assumption]. intros Hin.
      apply in_map_iff in Hin. destruct Hin as [m' [He Hm']].
      rewrite Forall_forall in Hall. destruct (Hall m' Hm') as [Hlt _].
      unfold id_lt in Hlt. rewrite He in Hlt.
      destruct (idNumber (Message.id m)); [lia|exact Hlt].
    + constructor; [assumption|]. eapply Forall_impl; [|exact Hall]. cbv beta. tauto.
    + constructor; [assumption|]. eapply Forall_impl; [|exact Hall]. cbv beta. tauto.
Qed.

(** ** Rooms *)

(** C10.  Deleting an id that no room carries never fails: the command
    writes back the sequence it read, and still publishes [ROOM_DELETED]
    with that id. *)
Theorem deleteRoom_unknown_id (w : World) (roomId : string) :
  (forall r, In r (rooms_of w) -> Room.id r <> roomId) ->
  result (deleteRoom roomId) w = Ok tt
  /\ item_rooms (storage (after (deleteRoom roomId) w)) = Some (rooms_of w)
  /\ rooms_of (after (deleteRoom roomId) w) = rooms_of w
  /\ timers (after (deleteRoom roomId) w) = (timers w ++ [ROOM_DELETED roomId])%list.
Proof.
  intros H. unfold result, after. rewrite deleteRoom_eq. cbn [fst snd].
  rewrite filter_all by (intros r Hr; apply eqb_neq_negb; auto).
  repeat split.
Qed.

(** On the seeded store no room has the id r9. *)
Lemma deleteRoom_unknown_id_witness :
  (forall r, In r (rooms_of freshWorld) -> Room.id r <> "r9")
  /\ result (deleteRoom "r9") freshWorld = Ok tt
  /\ rooms_of (after (deleteRoom "r9") freshWorld) = rooms_of freshWorld
  /\ timers (after (deleteRoom "r9") freshWorld) = [ROOM_DELETED "r9"].
Proof.
  assert (H : forall r, In r (rooms_of freshWorld) -> Room.id r <> "r9").
  { intros r [<-|[<-|[<-|[]]]]; discriminate. }
  split; [exact H|].
  destruct (deleteRoom_unknown_id freshWorld "r9" H) as [H1 [_ [H3 H4]]].
  repeat split; assumption.
Defined.

(** C1, as stated, fails: Bob (u2) deletes the room of u1.  The command
    returns normally and the room is gone from the next listing. *)
Lemma deleteRoom_non_owner_succeeds :
  In secretClub (rooms_of freshWorld)
  /\ User.id (currentUser (freshView bob)) <> Room.createdBy secretClub
  /\ result (handleDeleteRoom true (Room.id secretClub) (freshView bob)) freshWorld
     = Ok (freshView bob)
  /\ ~ In secretClub
        (rooms_of (after (handleDeleteRoom true (Room.id secretClub) (freshView bob))
                     freshWorld)).
Proof.
  split; [|split; [|split]].
  - right; right; left; reflexivity.
  - discriminate.
  - reflexivity.
  - intros [H|[H|[]]]; discriminate.
Qed.

(** C1, amended.  [deleteRoom] has no requester and checks no ownership:
    whoever the current user is, a confirmed deletion returns normally,
    the next listing holds exactly the rooms with another id, in order,
    and one [ROOM_DELETED] is published.  Ownership only decides whether
    the view renders the delete control. *)
Theorem deleteRoom_any_requester (w : World) (view : UI) (roomId : string) :
  let w' := after (handleDeleteRoom true roomId view) w in
  result (handleDeleteRoom true roomId view) w = Ok view
  /\ result getRooms w' =
       Ok (filter (fun r => negb (String.eqb (Room.id r) roomId)) (rooms_of w))
  /\ (forall r, In r (rooms_of w') <-> In r (rooms_of w) /\ Room.id r <> roomId)
  /\ timers w' = (timers w ++ [ROOM_DELETED roomId])%list
  /\ (forall r, showsDeleteControl view r = true <->
                User.id (currentUser view) = Room.createdBy r).
Proof.
  cbv zeta. unfold result, after, handleDeleteRoom, try_catch, bind. cbn [negb].
  rewrite deleteRoom_eq. unfold ret. cbn [fst snd]. unfold getRooms. rewrite load_rooms.
  split; [reflexivity|]. split; [reflexivity|]. split; [|split; [reflexivity|]].
  - intros r.
    change (In r (filter (fun r => negb (String.eqb (Room.id r) roomId)) (rooms_of w))
            <-> In r (rooms_of w) /\ Room.id r <> roomId).
    rewrite filter_In, eqb_neq_negb. reflexivity.
  - intros r. apply String.eqb_eq.
Qed.

(** C2, as stated, fails: a private room with an empty credential is
    created, stored and announced. *)
Lemma createRoom_private_empty_password :
  Room.s_isPrivate vault = true
  /\ Room.s_password vault = Some ""
  /\ result (createRoom vault) freshWorld = Ok (Room.withId vault "r1700000000000")
  /\ In (Room.withId vault "r1700000000000") (rooms_of (after (createRoom vault) freshWorld))
  /\ timers (after (createRoom vault) freshWorld) = [ROOM_CREATED (Room.withId vault "r1700000000000")].
Proof.
  repeat split. right; right; right; left; reflexivity.
Qed.

(** C2, amended.  [createRoom] validates nothing: for every room
    specification, private or not, with or without a credential, it
    returns the room under the id [r<clock>], appends it to the rooms
    collection and publishes exactly one [ROOM_CREATED]. *)
Theorem createRoom_always_succeeds (w : World) (room : Room.spec) :
  let created := Room.withId room ("r" ++ show (clock w (ticks w))) in
  let w' := after (createRoom room) w in
  result (createRoom room) w = Ok created
  /\ rooms_of w' = (rooms_of w ++ [created])%list
  /\ timers w' = (timers w ++ [ROOM_CREATED created])%list
  /\ Room.isPrivate created = Room.s_isPrivate room
  /\ Room.password created = Room.s_password room.
Proof.
  cbv zeta. unfold result, after. rewrite createRoom_eq. repeat split.
Qed.

(** ** Messages *)

(** C3, as stated, fails: a message with empty content for a room id
    that no room carries is stored and announced. *)
Lemma sendMessage_empty_unknown_room :
  (forall r, In r (rooms_of freshWorld) -> Room.id r <> Message.s_roomId stray)
  /\ Message.s_content stray = ""
  /\ result (sendMessage stray) freshWorld = Ok (Message.stamp stray "m1700000000000" 1700000000000)
  /\ messages_of (after (sendMessage stray) freshWorld) = [Message.stamp stray "m1700000000000" 1700000000000]
  /\ timers (after (sendMessage stray) freshWorld)
     = [NEW_MESSAGE (Message.stamp stray "m1700000000000" 1700000000000)].
Proof.
  repeat split.
  intros r [<-|[<-|[<-|[]]]]; discriminate.
Qed.

(** C3, amended.  [sendMessage] validates nothing: every call, whatever
    its content and room id, returns the message with the id [m<clock>]
    and the next clock reading as timestamp, appends it to the stored
    messages and publishes exactly one [NEW_MESSAGE]. *)
Theorem sendMessage_always_succeeds (w : World) (message : Message.spec) :
  let sent := Message.stamp message ("m" ++ show (clock w (ticks w)))
                (clock w (S (ticks w))) in
  let w' := after (sendMessage message) w in
  result (sendMessage message) w = Ok sent
  /\ messages_of w' = (messages_of w ++ [sent])%list
  /\ timers w' = (timers w ++ [NEW_MESSAGE sent])%list.
Proof.
  cbv zeta. unfold result, after. rewrite sendMessage_eq. repeat split.
Qed.



(** Three sends in a row, from any world: the listing of the room is
    its former listing followed by the three returned messages, which
    are stamped by the next six readings of the clock. *)
Lemma sendThree_listing (w : World) (s1 s2 s3 : Message.spec) (r : string) :
  Message.s_roomId s1 = r -> Message.s_roomId s2 = r -> Message.s_roomId s3 = r ->
  exists m1 m2 m3,
    result (sendThree s1 s2 s3) w = Ok [m1; m2; m3]
    /\ result (getMessages r) (after (sendThree s1 s2 s3) w)
       = Ok (filter (fun m => String.eqb (Message.roomId m) r) (messages_of w)
             ++ [m1; m2; m3])%list
    /\ Forall2 (stamped (clock w))
         [ticks w; (2 + ticks w)%nat; (4 + ticks w)%nat] [m1; m2; m3].
Proof.
  intros H1 H2 H3. unfold result, after, sendThree, bind.
  rewrite sendMessage_eq. cbv beta iota zeta.
  rewrite sendMessage_eq. cbv beta iota zeta.
  rewrite sendMessage_eq. cbv beta iota zeta. unfold ret. cbn [fst snd].
  rewrite getMessages_eq. cbn [fst].
  do 3 eexists. split; [reflexivity|]. split.
  - cbn [messages_of publish put tick set_timers set_storage set_ticks storage
         setItem item_messages].
    rewrite <- !app_assoc. rewrite filter_app. cbn [app filter Message.roomId Message.stamp].
    rewrite H1, H2, H3, String.eqb_refl. reflexivity.
  - repeat constructor.
Qed.


(** C4, as stated, fails: three messages sent to r1 within one
    millisecond all get the same id and the same timestamp. *)
Lemma same_millisecond_same_id :
  map Message.id (messages_of burstWorld)
  = ["m1700000000000"; "m1700000000000"; "m1700000000000"]
  /\ map Message.timestamp (messages_of burstWorld)
     = [1700000000000; 1700000000000; 1700000000000]
  /\ ~ NoDup (map Message.id (messages_of burstWorld))
  /\ ~ StronglySorted id_lt (messages_of burstWorld)
  /\ ~ StronglySorted timestamp_lt (messages_of burstWorld).
Proof.
  assert (E : messages_of burstWorld =
              [Message.stamp (hello "r1") "m1700000000000" 1700000000000;
               Message.stamp (hello "r1") "m1700000000000" 1700000000000;
               Message.stamp (hello "r1") "m1700000000000" 1700000000000])
    by (vm_compute; reflexivity).
  rewrite E. split; [reflexivity|]. split; [reflexivity|]. split; [|split].
  - intros H. inversion H as [|? ? Hin _]; subst. apply Hin. left. reflexivity.
  - intros H. inversion H as [|? ? _ Hall]; subst.
    inversion Hall as [|? ? Hlt _]; subst. vm_compute in Hlt. discriminate.
  - intros H. inversion H as [|? ? _ Hall]; subst.
    inversion Hall as [|? ? Hlt _]; subst. vm_compute in Hlt. discriminate.
Qed.

(** C4, amended.  Ids are [m<clock>], so the property holds as far as
    the clock separates the calls.  In every state reached from empty
    storage, if the values read by successive [sendMessage] calls strictly
    increase, the stored messages have pairwise distinct ids, and ids (by
    their number) and timestamps strictly increase in insertion order.
    Three messages sent to a room from any state are listed for that room
    after its former messages, in insertion order; their ids and
    timestamps strictly increase under the same proviso on the readings
    of the three calls. *)
Theorem message_ids_follow_clock (c : nat -> Z) :
  (forall actions,
     spaced c (idReadings actions (initWorld c)) ->
     NoDup (map Message.id (messages_of (runActions actions (initWorld c))))
     /\ StronglySorted id_lt (messages_of (runActions actions (initWorld c)))
     /\ StronglySorted timestamp_lt (messages_of (runActions actions (initWorld c))))
  /\ (forall w s1 s2 s3 r,
        clock w = c ->
        Message.s_roomId s1 = r -> Message.s_roomId s2 = r -> Message.s_roomId s3 = r ->
        exists m1 m2 m3,
          result (sendThree s1 s2 s3) w = Ok [m1; m2; m3]
          /\ result (getMessages r) (after (sendThree s1 s2 s3) w)
             = Ok (filter (fun m => String.eqb (Message.roomId m) r) (messages_of w)
                   ++ [m1; m2; m3])%list
          /\ (spaced c [ticks w; (2 + ticks w)%nat; (4 + ticks w)%nat] ->
              StronglySorted id_lt [m1; m2; m3]
              /\ StronglySorted timestamp_lt [m1; m2; m3])).
Proof.
  split.
  - intros actions Hs.
    destruct (run_log actions (initWorld c)) as [added [Hm H2]].
    rewrite Hm. exact (stamped_spaced c _ _ H2 Hs).
  - intros w s1 s2 s3 r Hw H1 H2 H3.
    destruct (sendThree_listing w s1 s2 s3 r H1 H2 H3) as [m1 [m2 [m3 [R [L S]]]]].
    exists m1, m2, m3. split; [exact R|]. split; [exact L|].
    intros Hs. rewrite Hw in S. apply (stamped_spaced c _ _ S Hs).
Qed.

(** Three sends a millisecond apart, with other commands in between. *)
Lemma message_ids_follow_clock_witness :
  spaced steadyClock (idReadings busyDay (initWorld steadyClock))
  /\ NoDup (map Message.id (messages_of (runActions busyDay (initWorld steadyClock))))
  /\ StronglySorted id_lt (messages_of (runActions busyDay (initWorld steadyClock)))
  /\ StronglySorted timestamp_lt
       (messages_of (runActions busyDay (initWorld steadyClock))).
Proof.
  assert (Hs : spaced steadyClock (idReadings busyDay (initWorld steadyClock))).
  { change (spaced steadyClock [0; 2; 4]%nat).
    repeat constructor. }
  split; [exact Hs|].
  exact (proj1 (message_ids_follow_clock steadyClock) busyDay Hs).
Defined.



(** ** Accounts *)


Lemma find_email_none email w :
  ~ email_used email w ->
  find (fun u => String.eqb (User.email u) email) (users_of w) = None.
Proof.
  intros H. destruct (find _ (users_of w)) as [u|] eqn:E; [|reflexivity].
  apply find_some in E. destruct E as [Hin He]. apply String.eqb_eq in He.
  exfalso. apply H. exists u. auto.
Qed.

Lemma find_email_some email w :
  email_used email w ->
  exists u, find (fun u => String.eqb (User.email u) email) (users_of w) = Some u.
Proof.
  intros [u [Hin He]]. apply find_exists. exists u. split; [assumption|].
  apply String.eqb_eq. exact He.
Qed.

(** C5.  Registering an unused email succeeds, and a login with the same
    email and credential right after it succeeds and returns a user with
    that email. *)
Theorem register_then_login (w : World) (name email password : string) :
  ~ email_used email w ->
  exists registered loggedIn,
    result (register name email password) w = Ok registered
    /\ result (login email password) (after (register name email password) w)
       = Ok loggedIn
    /\ User.email loggedIn = email.
Proof.
  intros H. unfold result, after.
  rewrite register_eq, (find_email_none _ _ H). cbv zeta. cbn [fst snd].
  set (newUser := User.mk _ name email (Some password) _ true None).
  rewrite login_eq.
  set (w1 := publish _ _).
  assert (U : users_of w1 = (users_of w ++ [newUser])%list) by reflexivity.
  destruct (find_exists (matches email password) (users_of w1)) as [found E].
  { exists newUser. rewrite U. split.
    - apply in_or_app. right. left. reflexivity.
    - apply matches_iff. split; reflexivity. }
  rewrite E. cbv zeta. cbn [fst].
  exists newUser, (User.set_isOnline true found). repeat split.
  apply find_some in E. destruct E as [_ E]. apply matches_iff in E. apply E.
Qed.

(** A new address on the seeded store. *)
Lemma register_then_login_witness :
  ~ email_used "zed@test.com" freshWorld
  /\ exists registered loggedIn,
       result (register "Zed" "zed@test.com" "s3cret") freshWorld = Ok registered
       /\ result (login "zed@test.com" "s3cret")
            (after (register "Zed" "zed@test.com" "s3cret") freshWorld) = Ok loggedIn
       /\ User.email loggedIn = "zed@test.com".
Proof.
  assert (H : ~ email_used "zed@test.com" freshWorld).
  { intros [u [[<-|[<-|[<-|[<-|[<-|[]]]]]] He]]; discriminate. }
  split; [exact H|].
  exact (register_then_login freshWorld "Zed" "zed@test.com" "s3cret" H).
Defined.

(** C6.  Registering an email that a stored user already has throws
    [Email already exists]; nothing is queued for broadcast, and every
    collection reads as before (so does the clock and the subscriber
    set). *)
Theorem register_email_taken (w : World) (name email password : string) :
  email_used email w ->
  let w' := after (register name email password) w in
  result (register name email password) w = Throw EmailTaken
  /\ timers w' = timers w
  /\ users_of w' = users_of w
  /\ rooms_of w' = rooms_of w
  /\ messages_of w' = messages_of w
  /\ listeners w' = listeners w
  /\ ticks w' = ticks w.
Proof.
  intros H. cbv zeta. unfold result, after. rewrite register_eq.
  destruct (find_email_some _ _ H) as [u ->]. repeat split.
Qed.

(** The address of a seeded user. *)
Lemma register_email_taken_witness :
  email_used "user1@test.com" freshWorld
  /\ result (register "Mallory" "user1@test.com" "x") freshWorld = Throw EmailTaken
  /\ timers (after (register "Mallory" "user1@test.com" "x") freshWorld) = []
  /\ users_of (after (register "Mallory" "user1@test.com" "x") freshWorld)
     = INITIAL_USERS.
Proof.
  assert (H : email_used "user1@test.com" freshWorld).
  { eexists. split; [left; reflexivity | reflexivity]. }
  split; [exact H|].
  destruct (register_email_taken freshWorld "Mallory" "user1@test.com" "x" H)
    as [H1 [H2 [H3 _]]].
  repeat split; assumption.
Defined.


(** C7.  [login] throws [Invalid credentials] exactly when no stored user
    has both that email and that credential.  When one has, the first
    such user is returned with [isOnline] set, the stored collection holds
    that record wherever the user's id occurs, and one [USER_UPDATE]
    carrying it is published. *)
Theorem login_spec (w : World) (email password : string) :
  let w' := after (login email password) w in
  (result (login email password) w = Throw InvalidCredentials <->
   ~ exists u, In u (users_of w) /\ credentials_match email password u)
  /\ ((exists u, In u (users_of w) /\ credentials_match email password u) ->
      exists u,
        In u (users_of w) /\ credentials_match email password u
        /\ result (login email password) w = Ok (User.set_isOnline true u)
        /\ User.isOnline (User.set_isOnline true u) = true
        /\ item_users (storage w') =
             Some (map (fun x => if String.eqb (User.id x) (User.id u)
                                 then User.set_isOnline true u else x) (users_of w))
        /\ In (User.set_isOnline true u) (users_of w')
        /\ timers w' = (timers w ++ [USER_UPDATE (User.set_isOnline true u)])%list).
Proof.
  cbv zeta. unfold result, after. rewrite login_eq.
  destruct (find (matches email password) (users_of w)) as [found|] eqn:E.
  - pose proof (find_some _ _ E) as [Hin Hm]. apply matches_iff in Hm.
    cbv zeta. cbn [fst snd]. split.
    + split; [discriminate|]. intros H. exfalso. apply H. exists found. auto.
    + intros _. exists found. repeat split; try apply Hm; try assumption.
      change (In (User.set_isOnline true found)
                (map (fun x => if String.eqb (User.id x) (User.id found)
                               then User.set_isOnline true found else x) (users_of w))).
      apply in_map_iff. exists found. rewrite String.eqb_refl. auto.
  - cbn [fst snd]. split.
    + split; [|reflexivity]. intros _ [u [Hin Hm]].
      apply matches_iff in Hm. rewrite (find_none _ _ E u Hin) in Hm. discriminate.
    + intros [u [Hin Hm]]. apply matches_iff in Hm.
      rewrite (find_none _ _ E u Hin) in Hm. discriminate.
Qed.

(** Bob's credentials, and the same with one letter in another case. *)
Lemma login_spec_witness :
  (exists u, In u (users_of freshWorld)
             /\ credentials_match "user2@test.com" "password123" u)
  /\ (exists u, credentials_match "user2@test.com" "password123" u
                /\ result (login "user2@test.com" "password123") freshWorld
                   = Ok (User.set_isOnline true u))
  /\ result (login "user2@test.com" "Password123") freshWorld
     = Throw InvalidCredentials.
Proof.
  assert (H : exists u, In u (users_of freshWorld)
                        /\ credentials_match "user2@test.com" "password123" u).
  { exists bob. split; [right; left; reflexivity | split; reflexivity]. }
  split; [exact H|]. split.
  - destruct (proj2 (login_spec freshWorld "user2@test.com" "password123") H)
      as [u [_ [Hm [R _]]]]. exists u. split; assumption.
  - apply (proj1 (login_spec freshWorld "user2@test.com" "Password123")).
    intros [u [[<-|[<-|[<-|[<-|[<-|[]]]]]] [_ Hp]]]; discriminate.
Defined.

(** ** The socket *)


Lemma subscribe_appends (callback : Listener) (w : World) :
  has_lid (lid callback) (listeners w) = false ->
  listeners (after (subscribeToSocket callback) w) = (listeners w ++ [callback])%list.
Proof.
  intros H. unfold after, subscribeToSocket. cbn [snd]. rewrite H. reflexivity.
Qed.

Lemma forEach_all_return (e : Event) (ls : list Listener) :
  (forall l, In l ls -> run l e = Ok tt) ->
  forall w,
    forEach ls e w = (Ok tt, set_delivered (delivered w ++ receipts e ls) w).
Proof.
  induction ls as [|l ls IH]; intros H w.
  - simpl. rewrite app_nil_r. destruct w; reflexivity.
  - simpl. unfold bind. rewrite (H l (or_introl eq_refl)).
    rewrite IH by (intros x Hx; apply H; right; exact Hx).
    cbn [delivered set_delivered]. rewrite <- app_assoc. reflexivity.
Qed.

Lemma forEach_first_throw (e : Event) (pre post : list Listener) (l : Listener) err :
  (forall x, In x pre -> run x e = Ok tt) ->
  run l e = Throw err ->
  forall w,
    forEach (pre ++ l :: post) e w =
    (Throw err, set_delivered (delivered w ++ receipts e (pre ++ [l])) w).
Proof.
  intros Hpre Hl. induction pre as [|x pre IH]; intros w.
  - simpl. unfold bind. rewrite Hl. reflexivity.
  - simpl. unfold bind. rewrite (Hpre x (or_introl eq_refl)).
    rewrite IH by (intros y Hy; apply Hpre; right; exact Hy).
    cbn [delivered set_delivered]. rewrite <- app_assoc. reflexivity.
Qed.

(** C8, as stated, fails: of two subscribers, the first throws; the
    second, subscribed all along, is never called with the event. *)
Lemma throwing_listener_stops_delivery :
  listeners (pendingDelivery thrower quiet) = [thrower; quiet]
  /\ timers (pendingDelivery thrower quiet) = [ROOM_DELETED "r1"]
  /\ delivered (after fire (pendingDelivery thrower quiet))
     = [(lid thrower, ROOM_DELETED "r1")]
  /\ ~ In (lid quiet, ROOM_DELETED "r1")
        (delivered (after fire (pendingDelivery thrower quiet))).
Proof.
  repeat split.
  intros [H|[]]. discriminate.
Qed.

(** C8, amended.  When the timeout of a broadcast fires, the subscribers
    of that moment are called with the event in subscription order, up to
    and including the first one that throws: if none throws, every one of
    them receives it; if one throws, the exception leaves the loop and
    the subscribers after it are not called. *)
Theorem fire_delivery (w : World) (e : Event) (rest : list Event) :
  timers w = e :: rest ->
  ((forall l, In l (listeners w) -> run l e = Ok tt) ->
   result fire w = Ok tt
   /\ delivered (after fire w) = (delivered w ++ receipts e (listeners w))%list
   /\ timers (after fire w) = rest)
  /\ (forall pre l post err,
        listeners w = (pre ++ l :: post)%list ->
        (forall x, In x pre -> run x e = Ok tt) ->
        run l e = Throw err ->
        result fire w = Throw err
        /\ delivered (after fire w) = (delivered w ++ receipts e (pre ++ [l]))%list
        /\ timers (after fire w) = rest).
Proof.
  intros Ht. unfold result, after, fire. rewrite Ht. split.
  - intros H. rewrite forEach_all_return by exact H. repeat split.
  - intros pre l post err Hl Hpre Hthrow. cbn [listeners set_timers].
    rewrite Hl. rewrite (forEach_first_throw e pre post l err Hpre Hthrow).
    repeat split.
Qed.

(** The quiet subscriber first, the throwing one second: both are called. *)
Lemma fire_delivery_witness :
  timers (pendingDelivery quiet thrower) = [ROOM_DELETED "r1"]
  /\ delivered (after fire (pendingDelivery quiet thrower))
     = [(lid quiet, ROOM_DELETED "r1"); (lid thrower, ROOM_DELETED "r1")]
  /\ result fire (pendingDelivery quiet thrower) = Throw (Err "boom").
Proof.
  assert (Ht : timers (pendingDelivery quiet thrower) = [ROOM_DELETED "r1"])
    by reflexivity.
  split; [exact Ht|].
  destruct (proj2 (fire_delivery _ _ [] Ht) [quiet] thrower [] (Err "boom"))
    as [R [D _]].
  - reflexivity.
  - intros x [<-|[]]. reflexivity.
  - reflexivity.
  - split; [exact D | exact R].
Defined.

(** ** The access-control gate *)


Lemma getMessages_only_room (roomId : string) (w : World) :
  exists msgs,
    result (getMessages roomId) w = Ok msgs
    /\ Forall (fun m => Message.roomId m = roomId) msgs.
Proof.
  unfold result. rewrite getMessages_eq. eexists. split; [reflexivity|].
  apply Forall_forall. intros m Hm. apply filter_In in Hm.
  apply String.eqb_eq. tauto.
Qed.

(** C9.  For a private room that is not the active one, opening the
    challenge and submitting a credential other than the room's ends in
    [Rejected]: the world is untouched and the view keeps its messages
    and its active room.  Submitting the room's credential ends in
    [Joined]: the view holds exactly the stored messages of that room, in
    storage order, which is what [getMessages] returns for the room, and
    these are messages of that room only; the stored messages and the
    event queue are as before. *)
Theorem join_private_room (w : World) (view : UI) (room : Room.t) (typed : string) :
  Room.isPrivate room = true ->
  is_active (Room.id room) view = false ->
  (Room.password room <> Some typed ->
   exists view',
     joinAttempt room typed view w = (Ok view', w)
     /\ gate room view' = Rejected
     /\ joinError view' = "Incorrect password"
     /\ showPasswordModal view' = true
     /\ messages view' = messages view
     /\ activeRoomId view' = activeRoomId view)
  /\ (Room.password room = Some typed ->
      exists view',
        result (joinAttempt room typed view) w = Ok view'
        /\ gate room view' = Joined
        /\ activeRoomId view' = Some (Room.id room)
        /\ showPasswordModal view' = false
        /\ result (getMessages (Room.id room)) w = Ok (messages view')
        /\ Forall (fun m => Message.roomId m = Room.id room) (messages view')
        /\ messages view'
           = filter (fun m => String.eqb (Message.roomId m) (Room.id room))
               (messages_of w)
        /\ messages_of (after (joinAttempt room typed view) w) = messages_of w
        /\ timers (after (joinAttempt room typed view) w) = timers w).
Proof.
  intros Hpriv Hidle. unfold after, joinAttempt, handleJoinRoom, bind.
  rewrite Hidle, Hpriv. unfold ret. unfold handleJoinPrivateSubmit.
  cbn [pendingRoom setJoinPassword setShowPasswordModal setJoinError setPendingRoom
       joinPassword].
  split.
  - intros Hne.
    destruct (same_password (Room.password room) typed) eqn:E.
    { apply same_password_iff in E. contradiction. }
    eexists. split; [reflexivity|]. repeat split.
    unfold gate, is_active in *. cbn. rewrite String.eqb_refl.
    destruct (activeRoomId view); [rewrite Hidle|]; reflexivity.
  - intros He. rewrite (proj2 (same_password_iff _ _) He).
    unfold executeJoinRoom, bind, result. rewrite !getMessages_eq. unfold ret.
    cbn [fst]. eexists. split; [reflexivity|].
    destruct (innerWidth _ <? 768); cbn; unfold gate, is_active; cbn;
      rewrite String.eqb_refl; repeat split;
      apply Forall_forall; intros m Hm; apply filter_In in Hm;
      apply String.eqb_eq; tauto.
Qed.
(** Bob at the door of the Secret Club, with a wrong and with the right
    credential. *)
Lemma join_private_room_witness :
  Room.isPrivate secretClub = true
  /\ is_active (Room.id secretClub) (freshView bob) = false
  /\ Room.password secretClub <> Some "12"
  /\ Room.password secretClub = Some "123"
  /\ (exists view',
        joinAttempt secretClub "12" (freshView bob) lobbyWorld = (Ok view', lobbyWorld)
        /\ gate secretClub view' = Rejected)
  /\ (exists view',
        result (joinAttempt secretClub "123" (freshView bob)) lobbyWorld = Ok view'
        /\ gate secretClub view' = Joined
        /\ result (getMessages "r3") lobbyWorld = Ok (messages view')
        /\ messages view' = [Message.stamp (hello "r3") "m10" 11]).
Proof.
  assert (Hp : Room.isPrivate secretClub = true) by reflexivity.
  assert (Ha : is_active (Room.id secretClub) (freshView bob) = false) by reflexivity.
  assert (Hne : Room.password secretClub <> Some "12") by discriminate.
  assert (He : Room.password secretClub = Some "123") by reflexivity.
  repeat (split; [assumption|]). split.
  - destruct (proj1 (join_private_room lobbyWorld (freshView bob) secretClub "12" Hp Ha)
                Hne) as [view' [R [G _]]]. exists view'. split; assumption.
  - destruct (proj2 (join_private_room lobbyWorld (freshView bob) secretClub "123" Hp Ha)
                He) as [view' [R [G [_ [_ [M [_ [L _]]]]]]]].
    exists view'. repeat split; assumption.
Defined.

(** * Further properties *)

(** ** The store *)

Lemma logout_eq userId w :
  logout userId w =
  (Ok tt,
   publish (USER_LEFT userId)
     (put chat_users
        (map (fun u => if String.eqb (User.id u) userId
                       then User.set_isOnline false u else u) (users_of w)) w)).
Proof.
  unfold logout, bind. rewrite load_users. reflexivity.
Qed.

Lemma updateProfile_eq userId updates w :
  updateProfile userId updates w =
  let stored :=
    put chat_users
      (map (fun u => if String.eqb (User.id u) userId
                     then User.merge u updates else u) (users_of w)) w in
  (Ok (lastUpdated userId updates (users_of w)),
   match lastUpdated userId updates (users_of w) with
   | Some u => publish (USER_UPDATE u) stored
   | None => stored
   end).
Proof.
  unfold updateProfile, bind. rewrite load_users. cbv zeta.
  destruct (lastUpdated userId updates (users_of w)); reflexivity.
Qed.

Lemma getStorage_seeds_once (k : key) (init init' : data k) (w : World) :
  result (getStorage k init') (after (getStorage k init) w)
  = result (getStorage k init) w
  /\ after (getStorage k init') (after (getStorage k init) w)
     = after (getStorage k init) w
  /\ (getItem k (storage w) = None -> result (getStorage k init) w = Ok init)
  /\ (forall stored, getItem k (storage w) = Some stored ->
        getStorage k init w = (Ok stored, w)).
Proof.
  unfold result, after, getStorage.
  destruct k; destruct w as [[us rs ms] ls ts dl ck tk]; cbn;
    [destruct us | destruct rs | destruct ms]; cbn; repeat split;
    try discriminate; intros stored H; inversion H; reflexivity.
Qed.

(** X1.  A value written under a key is what the next load of that key returns,
    whatever default is passed, and the write leaves the other keys alone.
    A load seeds an absent key with its default and returns it; a present
    key is returned as it is, so after one load a later load returns the
    same and changes nothing. *)
Theorem storage_round_trip (k : key) (v init init' : data k) (w : World) :
  (result (setStorage k v ;; getStorage k init) w = Ok v
   /\ after (setStorage k v ;; getStorage k init) w = after (setStorage k v) w
   /\ (forall k', k' <> k ->
         getItem k' (storage (after (setStorage k v) w)) = getItem k' (storage w)))
  /\ (result (getStorage k init') (after (getStorage k init) w)
      = result (getStorage k init) w
      /\ after (getStorage k init') (after (getStorage k init) w)
         = after (getStorage k init) w
      /\ (getItem k (storage w) = None -> result (getStorage k init) w = Ok init)
      /\ (forall stored, getItem k (storage w) = Some stored ->
            getStorage k init w = (Ok stored, w))).
Proof.
  split; [|exact (getStorage_seeds_once k init init' w)].
  split; [|split].
  - destruct k; reflexivity.
  - destruct k; reflexivity.
  - intros k' Hk. destruct k, k'; try reflexivity; contradiction.
Qed.

Lemma storage_round_trip_witness :
  getItem chat_rooms (storage freshWorld) = None
  /\ result (getStorage chat_rooms INITIAL_ROOMS) freshWorld = Ok INITIAL_ROOMS
  /\ chat_users <> chat_rooms
  /\ getItem chat_users (storage (after (setStorage chat_rooms []) freshWorld))
     = getItem chat_users (storage freshWorld).
Proof.
  assert (H : getItem chat_rooms (storage freshWorld) = None) by reflexivity.
  assert (K : chat_users <> chat_rooms) by discriminate.
  split; [exact H|]. split; [|split; [exact K|]].
  - exact (proj1 (proj2 (proj2 (proj2
             (storage_round_trip chat_rooms [] INITIAL_ROOMS [] freshWorld)))) H).
  - exact (proj2 (proj2 (proj1
             (storage_round_trip chat_rooms [] INITIAL_ROOMS [] freshWorld)))
             chat_users K).
Defined.

(** ** Reads *)

(** X2.  The three read commands publish nothing, call no subscriber, read
    no clock and leave every collection reading as before; run twice, they
    leave the world as run once. *)
Theorem reads_only_seed (a : Action) (w : World) :
  isRead a = true ->
  users_of (perform a w) = users_of w
  /\ rooms_of (perform a w) = rooms_of w
  /\ messages_of (perform a w) = messages_of w
  /\ timers (perform a w) = timers w
  /\ listeners (perform a w) = listeners w
  /\ delivered (perform a w) = delivered w
  /\ ticks (perform a w) = ticks w
  /\ perform a (perform a w) = perform a w.
Proof.
  destruct a; try discriminate; intros _; unfold perform, after.
  - unfold getRooms. rewrite !load_rooms. cbn [snd]. world w; repeat split.
  - unfold getUsers. rewrite !load_users. cbn [snd]. world w; repeat split.
  - rewrite !getMessages_eq. cbn [snd]. world w; repeat split.
Qed.

Lemma reads_only_seed_witness :
  isRead GetRooms = true
  /\ rooms_of (perform GetRooms freshWorld) = INITIAL_ROOMS
  /\ timers (perform GetRooms freshWorld) = []
  /\ perform GetRooms (perform GetRooms freshWorld) = perform GetRooms freshWorld.
Proof.
  assert (H : isRead GetRooms = true) by reflexivity.
  split; [exact H|].
  destruct (reads_only_seed GetRooms freshWorld H) as [_ [R [_ [T [_ [_ [_ I]]]]]]].
  repeat split; assumption.
Defined.

(** ** Accounts, continued *)

Lemma map_ext_in_id {A B} (f : A -> A) (g : A -> B) (l : list A) :
  (forall x, In x l -> g (f x) = g x) -> map g (map f l) = map g l.
Proof.
  intros H. rewrite map_map. apply map_ext_in. exact H.
Qed.

(** X3.  [logout] never fails.  It turns [isOnline] off on every stored user
    with the id, keeps all others, keeps order, ids, emails and
    credentials, and publishes one [USER_LEFT], also for an unknown id. *)
Theorem logout_spec (w : World) (userId : string) :
  result (logout userId) w = Ok tt
  /\ users_of (after (logout userId) w)
     = map (fun u => if String.eqb (User.id u) userId
                     then User.set_isOnline false u else u) (users_of w)
  /\ (forall u, In u (users_of (after (logout userId) w)) ->
                User.id u = userId -> User.isOnline u = false)
  /\ (forall u, In u (users_of w) -> User.id u <> userId ->
                In u (users_of (after (logout userId) w)))
  /\ map User.id (users_of (after (logout userId) w)) = map User.id (users_of w)
  /\ map User.email (users_of (after (logout userId) w)) = map User.email (users_of w)
  /\ map User.password (users_of (after (logout userId) w))
     = map User.password (users_of w)
  /\ timers (after (logout userId) w) = (timers w ++ [USER_LEFT userId])%list.
Proof.
  unfold result, after. rewrite logout_eq. cbn [fst snd].
  set (f := fun u => if String.eqb (User.id u) userId
                     then User.set_isOnline false u else u).
  change (users_of (publish (USER_LEFT userId) (put chat_users (map f (users_of w)) w)))
    with (map f (users_of w)).
  assert (Hf : forall x, User.id (f x) = User.id x /\ User.email (f x) = User.email x
                         /\ User.password (f x) = User.password x).
  { intros x. unfold f. destruct (String.eqb (User.id x) userId); repeat split. }
  split; [reflexivity|]. split; [reflexivity|]. split; [|split; [|split; [|split; [|split]]]].
  - intros u Hin Hid. apply in_map_iff in Hin. destruct Hin as [x [Hx _]].
    subst u. unfold f in *. destruct (String.eqb (User.id x) userId) eqn:E.
    + reflexivity.
    + apply String.eqb_neq in E. contradiction.
  - intros u Hin Hid. apply in_map_iff. exists u. split; [|assumption].
    unfold f. apply String.eqb_neq in Hid. rewrite Hid. reflexivity.
  - apply map_ext_in_id. intros x _. apply Hf.
  - apply map_ext_in_id. intros x _. apply Hf.
  - apply map_ext_in_id. intros x _. apply Hf.
  - reflexivity.
Qed.

Lemma logout_spec_witness :
  In bob (users_of freshWorld)
  /\ User.id bob <> "u1"
  /\ In bob (users_of (after (logout "u1") freshWorld)).
Proof.
  assert (Hin : In bob (users_of freshWorld)) by (right; left; reflexivity).
  assert (Hid : User.id bob <> "u1") by discriminate.
  repeat (split; [assumption|]).
  destruct (logout_spec freshWorld "u1") as [_ [_ [_ [K _]]]].
  exact (K bob Hin Hid).
Defined.

(** X4.  After a successful login and the logout of the returned user, every
    stored user with that id is offline, and [USER_UPDATE] then [USER_LEFT]
    were queued. *)
Theorem login_then_logout (w : World) (email password : string) (u : User.t) :
  result (login email password) w = Ok u ->
  let w1 := after (login email password) w in
  let w2 := after (logout (User.id u)) w1 in
  User.isOnline u = true
  /\ In u (users_of w1)
  /\ (forall x, In x (users_of w2) -> User.id x = User.id u -> User.isOnline x = false)
  /\ In (User.set_isOnline false u) (users_of w2)
  /\ timers w2 = (timers w ++ [USER_UPDATE u; USER_LEFT (User.id u)])%list.
Proof.
  intros R. cbv zeta. unfold result, after in *. rewrite login_eq in *.
  destruct (find (matches email password) (users_of w)) as [found|] eqn:E;
    [|discriminate].
  cbv zeta in *. cbn [fst snd] in *. injection R as <-.
  rewrite logout_eq. cbn [fst snd].
  set (g := fun x => if String.eqb (User.id x) (User.id found)
                     then User.set_isOnline true found else x).
  set (f := fun x => if String.eqb (User.id x) (User.id (User.set_isOnline true found))
                     then User.set_isOnline false x else x).
  assert (Hin : In (User.set_isOnline true found) (map g (users_of w))).
  { apply in_map_iff. exists found. split; [|exact (proj1 (find_some _ _ E))].
    unfold g. rewrite String.eqb_refl. reflexivity. }
  split; [reflexivity|]. split; [exact Hin|]. split; [|split].
  - intros x Hx Hid.
    change (In x (map f (map g (users_of w)))) in Hx.
    apply in_map_iff in Hx. destruct Hx as [y [Hy _]]. subst x.
    unfold f in *. destruct (String.eqb (User.id y) _) eqn:Ey; [reflexivity|].
    apply String.eqb_neq in Ey. contradiction.
  - change (In (User.set_isOnline false (User.set_isOnline true found))
              (map f (map g (users_of w)))).
    apply in_map_iff. exists (User.set_isOnline true found). split; [|exact Hin].
    unfold f. rewrite String.eqb_refl. reflexivity.
  - cbn. rewrite <- app_assoc. reflexivity.
Qed.

Lemma login_then_logout_witness :
  result (login "user2@test.com" "password123") freshWorld = Ok (User.set_isOnline true bob)
  /\ In (User.set_isOnline false (User.set_isOnline true bob))
       (users_of (after (logout "u2")
                    (after (login "user2@test.com" "password123") freshWorld))).
Proof.
  assert (R : result (login "user2@test.com" "password123") freshWorld
              = Ok (User.set_isOnline true bob)) by reflexivity.
  split; [exact R|].
  exact (proj1 (proj2 (proj2 (proj2
           (login_then_logout freshWorld "user2@test.com" "password123" _ R))))).
Defined.

Lemma lastUpdated_fold userId updates l acc :
  fold_left
    (fun acc u => if String.eqb (User.id u) userId
                  then Some (User.merge u updates) else acc) l acc
  = match lastUpdated userId updates l with
    | Some m => Some m
    | None => acc
    end.
Proof.
  unfold lastUpdated. revert acc. induction l as [|x l IH]; intros acc; [reflexivity|].
  cbn [fold_left]. rewrite IH. rewrite (IH (if String.eqb _ _ then _ else None)).
  destruct (fold_left _ l None); [reflexivity|].
  destruct (String.eqb (User.id x) userId); reflexivity.
Qed.

Lemma lastUpdated_none userId updates l :
  lastUpdated userId updates l = None <->
  forall u, In u l -> User.id u <> userId.
Proof.
  induction l as [|x l IH].
  - split; [intros _ u []|reflexivity].
  - unfold lastUpdated in *. cbn [fold_left]. rewrite lastUpdated_fold.
    unfold lastUpdated in *.
    destruct (fold_left _ l None) as [m|] eqn:E.
    + split; [discriminate|]. intros H. exfalso.
      assert (K : forall u, In u l -> User.id u <> userId)
        by (intros u Hu; apply H; right; exact Hu).
      apply IH in K. discriminate.
    + destruct (String.eqb (User.id x) userId) eqn:Ex.
      * split; [discriminate|]. intros H. apply String.eqb_eq in Ex.
        exfalso. apply (H x); [left; reflexivity | exact Ex].
      * split; [|reflexivity]. intros _ u [<-|Hu].
        -- apply String.eqb_neq. exact Ex.
        -- apply (proj1 IH eq_refl u Hu).
Qed.

Lemma lastUpdated_some userId updates l m :
  lastUpdated userId updates l = Some m ->
  exists u, In u l /\ User.id u = userId /\ m = User.merge u updates.
Proof.
  induction l as [|x l IH]; [discriminate|].
  unfold lastUpdated in *. cbn [fold_left]. rewrite lastUpdated_fold.
  unfold lastUpdated in *.
  destruct (fold_left _ l None) as [m'|] eqn:E.
  - intros H. injection H as <-. destruct (IH eq_refl) as [u [Hu [Hid Hm]]].
    exists u. repeat split; [right|..]; assumption.
  - destruct (String.eqb (User.id x) userId) eqn:Ex; [|discriminate].
    intros H. injection H as <-. exists x. apply String.eqb_eq in Ex.
    repeat split; [left; reflexivity | exact Ex].
Qed.

Lemma updateProfile_unknown_id (w : World) (userId : string) (updates : User.partial) :
  (forall u, In u (users_of w) -> User.id u <> userId) ->
  result (updateProfile userId updates) w = Ok None
  /\ users_of (after (updateProfile userId updates) w) = users_of w
  /\ timers (after (updateProfile userId updates) w) = timers w.
Proof.
  intros H. unfold result, after. rewrite updateProfile_eq. cbv zeta.
  rewrite (proj2 (lastUpdated_none userId updates (users_of w)) H). cbn [fst snd].
  split; [reflexivity|]. split; [|reflexivity].
  change (map (fun u => if String.eqb (User.id u) userId
                        then User.merge u updates else u) (users_of w) = users_of w).
  rewrite <- (map_id (users_of w)) at 2. apply map_ext_in. intros u Hu.
  apply H in Hu. apply String.eqb_neq in Hu. rewrite Hu. reflexivity.
Qed.


Lemma updateProfile_known_id (w : World) (userId : string) (updates : User.partial) :
  (exists u, In u (users_of w) /\ User.id u = userId) ->
  let w' := after (updateProfile userId updates) w in
  exists u,
    In u (users_of w) /\ User.id u = userId
    /\ result (updateProfile userId updates) w = Ok (Some (User.merge u updates))
    /\ In (User.merge u updates) (users_of w')
    /\ timers w' = (timers w ++ [USER_UPDATE (User.merge u updates)])%list
    /\ (forall x, In x (users_of w) -> User.id x <> userId -> In x (users_of w'))
    /\ (forall x, In x (users_of w) -> User.id x = userId ->
                  In (User.merge x updates) (users_of w'))
    /\ length (users_of w') = length (users_of w).
Proof.
  intros [u0 [Hin0 Hid0]]. cbv zeta. unfold result, after.
  rewrite updateProfile_eq. cbv zeta.
  destruct (lastUpdated userId updates (users_of w)) as [m|] eqn:E.
  - destruct (lastUpdated_some _ _ _ _ E) as [u [Hu [Hid Hm]]]. subst m.
    cbn [fst snd]. exists u.
    set (f := fun x => if String.eqb (User.id x) userId
                       then User.merge x updates else x).
    change (users_of (publish (USER_UPDATE (User.merge u updates))
                        (put chat_users (map f (users_of w)) w)))
      with (map f (users_of w)).
    assert (Hm : forall x, In x (users_of w) -> User.id x = userId ->
                           In (User.merge x updates) (map f (users_of w))).
    { intros x Hx Hxid. apply in_map_iff. exists x. split; [|assumption].
      unfold f. apply String.eqb_eq in Hxid. rewrite Hxid. reflexivity. }
    repeat split; try assumption.
    + apply Hm; assumption.
    + intros x Hx Hxid. apply in_map_iff. exists x. split; [|assumption].
      unfold f. apply String.eqb_neq in Hxid. rewrite Hxid. reflexivity.
    + apply length_map.
  - exfalso. apply (proj1 (lastUpdated_none _ _ _) E u0 Hin0 Hid0).
Qed.

(** X5.  [updateProfile] on an id that no stored user has returns nothing,
    publishes nothing and leaves the users as they were.  On a known id it
    returns the merge of such a user, stores the merge of every user with
    the id, keeps the others and the length, and publishes one
    [USER_UPDATE] with the returned record. *)
Theorem updateProfile_spec (w : World) (userId : string) (updates : User.partial) :
  ((forall u, In u (users_of w) -> User.id u <> userId) ->
   result (updateProfile userId updates) w = Ok None
   /\ users_of (after (updateProfile userId updates) w) = users_of w
   /\ timers (after (updateProfile userId updates) w) = timers w)
  /\ ((exists u, In u (users_of w) /\ User.id u = userId) ->
      let w' := after (updateProfile userId updates) w in
      exists u,
        In u (users_of w) /\ User.id u = userId
        /\ result (updateProfile userId updates) w = Ok (Some (User.merge u updates))
        /\ In (User.merge u updates) (users_of w')
        /\ timers w' = (timers w ++ [USER_UPDATE (User.merge u updates)])%list
        /\ (forall x, In x (users_of w) -> User.id x <> userId -> In x (users_of w'))
        /\ (forall x, In x (users_of w) -> User.id x = userId ->
                      In (User.merge x updates) (users_of w'))
        /\ length (users_of w') = length (users_of w)).
Proof.
  split.
  - exact (updateProfile_unknown_id w userId updates).
  - exact (updateProfile_known_id w userId updates).
Qed.

Lemma updateProfile_spec_witness :
  (forall u, In u (users_of freshWorld) -> User.id u <> "u9")
  /\ result (updateProfile "u9" (renameTo "Nobody")) freshWorld = Ok None
  /\ (exists u, In u (users_of freshWorld) /\ User.id u = "u2")
  /\ exists u,
       User.id u = "u2"
       /\ result (updateProfile "u2" (renameTo "Robert")) freshWorld
          = Ok (Some (User.merge u (renameTo "Robert"))).
Proof.
  assert (H : forall u, In u (users_of freshWorld) -> User.id u <> "u9").
  { intros u [<-|[<-|[<-|[<-|[<-|[]]]]]]; discriminate. }
  assert (K : exists u, In u (users_of freshWorld) /\ User.id u = "u2").
  { exists bob. split; [right; left; reflexivity | reflexivity]. }
  split; [exact H|]. split; [|split; [exact K|]].
  - exact (proj1 (proj1 (updateProfile_spec freshWorld "u9" (renameTo "Nobody")) H)).
  - destruct (proj2 (updateProfile_spec freshWorld "u2" (renameTo "Robert")) K)
      as [u [_ [Hid [R _]]]].
    exists u. split; assumption.
Defined.

Lemma login_fails_iff email password w :
  result (login email password) w = Throw InvalidCredentials <->
  forall x, In x (users_of w) -> matches email password x = false.
Proof.
  unfold result. rewrite login_eq.
  destruct (find (matches email password) (users_of w)) as [found|] eqn:E.
  - split; [discriminate|]. intros H. apply find_some in E.
    rewrite (H found (proj1 E)) in E. destruct E. discriminate.
  - split; [|reflexivity]. intros _ x Hx. exact (find_none _ _ E x Hx).
Qed.

Lemma login_succeeds email password w :
  (exists x, In x (users_of w) /\ matches email password x = true) ->
  exists u, result (login email password) w = Ok u /\ User.email u = email.
Proof.
  intros H. destruct (find_exists _ _ H) as [found E].
  unfold result. rewrite login_eq, E. cbv zeta. cbn [fst]. eexists. split; [reflexivity|].
  apply find_some in E. destruct E as [_ E]. apply matches_iff in E. apply E.
Qed.

Lemma updateProfile_users userId updates w :
  users_of (after (updateProfile userId updates) w)
  = map (fun u => if String.eqb (User.id u) userId
                  then User.merge u updates else u) (users_of w).
Proof.
  unfold after. rewrite updateProfile_eq. cbv zeta. cbn [snd].
  destruct (lastUpdated userId updates (users_of w)); reflexivity.
Qed.

(** X6.  For a user whose email is unique in the store, once [updateProfile]
    has set a new password, login with the new one succeeds and login with
    the old one fails. *)
Theorem new_password_takes_over (w : World) (u : User.t) (old new : string) :
  In u (users_of w) ->
  User.password u = Some old ->
  (forall x, In x (users_of w) -> User.email x = User.email u -> x = u) ->
  let w' := after (updateProfile (User.id u) (passwordTo new)) w in
  (exists v, result (login (User.email u) new) w' = Ok v /\ User.email v = User.email u)
  /\ (old <> new -> result (login (User.email u) old) w' = Throw InvalidCredentials).
Proof.
  intros Hin Hold Huniq. cbv zeta.
  set (f := fun x => if String.eqb (User.id x) (User.id u)
                     then User.merge x (passwordTo new) else x).
  pose proof (updateProfile_users (User.id u) (passwordTo new) w) as U.
  fold f in U. split.
  - apply login_succeeds. rewrite U. exists (f u). split.
    + apply in_map. exact Hin.
    + unfold f. rewrite String.eqb_refl. apply matches_iff. split; reflexivity.
  - intros Hne. apply login_fails_iff. rewrite U. intros y Hy.
    apply in_map_iff in Hy. destruct Hy as [x [Hx Hxin]]. subst y.
    destruct (matches (User.email u) old (f x)) eqn:M; [|reflexivity].
    apply matches_iff in M. destruct M as [Me Mp]. exfalso.
    unfold f in *. destruct (String.eqb (User.id x) (User.id u)) eqn:Ex.
    + cbn in Mp. congruence.
    + assert (x = u) by (apply Huniq; assumption). subst x.
      rewrite String.eqb_refl in Ex. discriminate.
Qed.

Lemma new_password_takes_over_witness :
  In bob (users_of freshWorld)
  /\ User.password bob = Some "password123"
  /\ (forall x, In x (users_of freshWorld) -> User.email x = User.email bob -> x = bob)
  /\ "password123" <> "hunter2"
  /\ result (login "user2@test.com" "password123")
       (after (updateProfile "u2" (passwordTo "hunter2")) freshWorld)
     = Throw InvalidCredentials.
Proof.
  assert (Hin : In bob (users_of freshWorld)) by (right; left; reflexivity).
  assert (Hp : User.password bob = Some "password123") by reflexivity.
  assert (Hu : forall x, In x (users_of freshWorld) ->
                         User.email x = User.email bob -> x = bob).
  { intros x [<-|[<-|[<-|[<-|[<-|[]]]]]] E; try discriminate E. reflexivity. }
  assert (Hne : "password123" <> "hunter2") by discriminate.
  repeat (split; [assumption|]).
  exact (proj2 (new_password_takes_over freshWorld bob "password123" "hunter2" Hin Hp Hu)
           Hne).
Defined.

Lemma login_users email password w found :
  find (matches email password) (users_of w) = Some found ->
  users_of (after (login email password) w)
  = map (fun x => if String.eqb (User.id x) (User.id found)
                  then User.set_isOnline true found else x) (users_of w).
Proof.
  intros E. unfold after. rewrite login_eq, E. reflexivity.
Qed.

Lemma NoDup_map_inj_in {A B} (f : A -> B) (l : list A) x y :
  NoDup (map f l) -> In x l -> In y l -> f x = f y -> x = y.
Proof.
  induction l as [|a l IH]; intros Hnd Hx Hy He; [destruct Hx|].
  simpl in Hnd. inversion Hnd as [|? ? Hnin Hnd']; subst.
  destruct Hx as [<-|Hx], Hy as [<-|Hy]; auto.
  - exfalso. apply Hnin. rewrite He. apply in_map. exact Hy.
  - exfalso. apply Hnin. rewrite <- He. apply in_map. exact Hx.
Qed.

(** X7.  With pairwise distinct stored ids, a successful login changes
    nothing in the users collection but the online flag of the user it
    returns. *)
Theorem login_touches_one_flag (w : World) (email password : string) (u : User.t) :
  NoDup (map User.id (users_of w)) ->
  result (login email password) w = Ok u ->
  let before := users_of w in
  let after_ := users_of (after (login email password) w) in
  Forall2 (fun a b => b = a \/ (User.id a = User.id u /\ b = User.set_isOnline true a))
    before after_
  /\ map User.id after_ = map User.id before
  /\ map User.email after_ = map User.email before
  /\ map User.password after_ = map User.password before.
Proof.
  intros Hnd R. cbv zeta. unfold result in R. rewrite login_eq in R.
  destruct (find (matches email password) (users_of w)) as [found|] eqn:E;
    [|discriminate].
  cbv zeta in R. cbn [fst] in R. injection R as <-.
  rewrite (login_users _ _ _ _ E).
  pose proof (find_some _ _ E) as [Hin _].
  set (g := fun x => if String.eqb (User.id x) (User.id found)
                     then User.set_isOnline true found else x).
  assert (Hg : forall x, In x (users_of w) ->
                 g x = x \/ (User.id x = User.id found /\ g x = User.set_isOnline true x)).
  { intros x Hx. unfold g. destruct (String.eqb (User.id x) (User.id found)) eqn:Ex.
    - right. apply String.eqb_eq in Ex. split; [exact Ex|].
      rewrite (NoDup_map_inj_in User.id _ x found Hnd Hx Hin Ex). reflexivity.
    - left. reflexivity. }
  split; [|split; [|split]].
  - clear -Hg. induction (users_of w) as [|x l IH]; [constructor|].
    cbn [map]. constructor.
    + destruct (Hg x (or_introl eq_refl)) as [->|[Hid ->]]; [left|right]; auto.
    + apply IH. intros y Hy. apply Hg. right. exact Hy.
  - apply map_ext_in_id. intros x Hx.
    destruct (Hg x Hx) as [->|[_ ->]]; reflexivity.
  - apply map_ext_in_id. intros x Hx.
    destruct (Hg x Hx) as [->|[_ ->]]; reflexivity.
  - apply map_ext_in_id. intros x Hx.
    destruct (Hg x Hx) as [->|[_ ->]]; reflexivity.
Qed.

Lemma login_touches_one_flag_witness :
  NoDup (map User.id (users_of freshWorld))
  /\ result (login "user2@test.com" "password123") freshWorld
     = Ok (User.set_isOnline true bob)
  /\ map User.email (users_of (after (login "user2@test.com" "password123") freshWorld))
     = map User.email (users_of freshWorld).
Proof.
  assert (Hnd : NoDup (map User.id (users_of freshWorld))).
  { repeat constructor; cbn; intuition discriminate. }
  assert (R : result (login "user2@test.com" "password123") freshWorld
              = Ok (User.set_isOnline true bob)) by reflexivity.
  repeat (split; [assumption|]).
  exact (proj1 (proj2 (proj2
           (login_touches_one_flag freshWorld "user2@test.com" "password123" _ Hnd R)))).
Defined.

(** X8.  [register] keeps the stored emails pairwise distinct, whether it
    succeeds or throws. *)
Theorem register_keeps_emails_distinct (w : World) (name email password : string) :
  NoDup (map User.email (users_of w)) ->
  NoDup (map User.email (users_of (after (register name email password) w))).
Proof.
  intros Hnd. unfold after. rewrite register_eq.
  destruct (find (fun u => String.eqb (User.email u) email) (users_of w)) as [u|] eqn:E.
  - exact Hnd.
  - cbv zeta. cbn [snd].
    set (newUser := User.mk _ name email (Some password) _ true None).
    change (NoDup (map User.email (users_of w ++ [newUser]))).
    rewrite map_app. cbn [map].
    apply NoDup_app; [exact Hnd | repeat constructor; intros [] | ].
    intros e He [<-|[]]. apply in_map_iff in He. destruct He as [x [Hx Hin]].
    pose proof (find_none _ _ E x Hin) as K. cbv beta in K.
    apply String.eqb_neq in K. apply K. exact Hx.
Qed.

Lemma register_keeps_emails_distinct_witness :
  NoDup (map User.email (users_of freshWorld))
  /\ NoDup (map User.email
             (users_of (after (register "Zed" "zed@test.com" "s3cret") freshWorld))).
Proof.
  assert (Hnd : NoDup (map User.email (users_of freshWorld))).
  { repeat constructor; cbn; intuition discriminate. }
  split; [exact Hnd|].
  exact (register_keeps_emails_distinct freshWorld "Zed" "zed@test.com" "s3cret" Hnd).
Defined.

(** ** Rooms and messages, continued *)

(** X9.  [deleteRoom] does not cascade: messages and users are untouched,
    and every listing, that of the deleted room included, is what it was. *)
Theorem deleteRoom_keeps_messages (w : World) (roomId : string) :
  messages_of (after (deleteRoom roomId) w) = messages_of w
  /\ (forall r, result (getMessages r) (after (deleteRoom roomId) w)
                = result (getMessages r) w)
  /\ users_of (after (deleteRoom roomId) w) = users_of w.
Proof.
  unfold result, after. rewrite deleteRoom_eq. cbn [snd].
  split; [reflexivity|]. split; [|reflexivity].
  intros r. rewrite !getMessages_eq. reflexivity.
Qed.

(** X10.  When the id [createRoom] assigns is not yet taken, creating a room
    and deleting the returned id restores the rooms collection, and queues
    [ROOM_CREATED] then [ROOM_DELETED]. *)
Theorem createRoom_then_deleteRoom (w : World) (room : Room.spec) (created : Room.t) :
  result (createRoom room) w = Ok created ->
  (forall r, In r (rooms_of w) -> Room.id r <> Room.id created) ->
  let w1 := after (createRoom room) w in
  let w2 := after (deleteRoom (Room.id created)) w1 in
  In created (rooms_of w1)
  /\ rooms_of w2 = rooms_of w
  /\ timers w2 = (timers w ++ [ROOM_CREATED created; ROOM_DELETED (Room.id created)])%list.
Proof.
  intros R Hfresh. cbv zeta. unfold result, after in *.
  rewrite createRoom_eq in *. cbv zeta in *. cbn [fst snd] in *. injection R as <-.
  set (created := Room.withId room _) in *.
  rewrite deleteRoom_eq. cbn [snd].
  change (rooms_of (publish (ROOM_CREATED created)
                      (put chat_rooms (rooms_of w ++ [created])%list (tick 1 w))))
    with (rooms_of w ++ [created])%list.
  split; [|split].
  - apply in_or_app. right. left. reflexivity.
  - change (filter (fun r => negb (String.eqb (Room.id r) (Room.id created)))
              (rooms_of w ++ [created])%list = rooms_of w).
    rewrite filter_app. cbn [filter]. rewrite String.eqb_refl. cbn [negb].
    rewrite app_nil_r. apply filter_all. intros r Hr. apply eqb_neq_negb. auto.
  - cbn. rewrite <- app_assoc. reflexivity.
Qed.

Lemma createRoom_then_deleteRoom_witness :
  result (createRoom vault) freshWorld = Ok (Room.withId vault "r1700000000000")
  /\ (forall r, In r (rooms_of freshWorld) -> Room.id r <> "r1700000000000")
  /\ rooms_of (after (deleteRoom "r1700000000000") (after (createRoom vault) freshWorld))
     = rooms_of freshWorld.
Proof.
  assert (R : result (createRoom vault) freshWorld
              = Ok (Room.withId vault "r1700000000000")) by reflexivity.
  assert (H : forall r, In r (rooms_of freshWorld) -> Room.id r <> "r1700000000000").
  { intros r [<-|[<-|[<-|[]]]]; discriminate. }
  repeat (split; [assumption|]).
  exact (proj1 (proj2 (createRoom_then_deleteRoom freshWorld vault _ R H))).
Defined.

(** X11.  A sent message is appended to the listing of its own room and
    changes the listing of no other room. *)
Theorem sendMessage_reaches_one_room (w : World) (message : Message.spec) (r : string) :
  exists sent,
    result (sendMessage message) w = Ok sent
    /\ Message.roomId sent = Message.s_roomId message
    /\ result (getMessages r) (after (sendMessage message) w)
       = Ok (listing r w ++ if String.eqb (Message.s_roomId message) r
                            then [sent] else [])%list
    /\ result (getMessages r) w = Ok (listing r w).
Proof.
  unfold result, after. rewrite sendMessage_eq. cbv zeta. cbn [fst snd].
  eexists. split; [reflexivity|]. split; [reflexivity|].
  rewrite !getMessages_eq. cbn [fst]. split; [|reflexivity].
  unfold listing.
  cbn [messages_of publish put tick set_timers set_storage set_ticks storage
       setItem item_messages].
  rewrite filter_app. reflexivity.
Qed.

(** ** The socket, continued *)

Lemma forEach_eq (e : Event) (ls : list Listener) (w : World) :
  forEach ls e w
  = (outcome e ls, set_delivered (delivered w ++ receipts e (called e ls)) w).
Proof.
  revert w. induction ls as [|l ls IH]; intros w.
  - cbn. rewrite app_nil_r. destruct w; reflexivity.
  - cbn [forEach called outcome]. unfold bind. destruct (run l e) as [[]|err].
    + rewrite IH. cbn [delivered set_delivered receipts map].
      rewrite <- app_assoc. reflexivity.
    + reflexivity.
Qed.

Lemma fire_eq (w : World) :
  fire w =
  match timers w with
  | [] => (Ok tt, w)
  | e :: rest =>
      (outcome e (listeners w),
       set_delivered (delivered w ++ receipts e (called e (listeners w)))
         (set_timers rest w))
  end.
Proof.
  unfold fire. destruct (timers w); [reflexivity|]. rewrite forEach_eq. reflexivity.
Qed.

Lemma called_all (e : Event) (ls : list Listener) :
  (forall l, In l ls -> run l e = Ok tt) -> called e ls = ls.
Proof.
  induction ls as [|l ls IH]; intros H; [reflexivity|].
  cbn. rewrite (H l (or_introl eq_refl)). f_equal. apply IH.
  intros x Hx. apply H. right. exact Hx.
Qed.

Lemma called_incl (e : Event) (ls : list Listener) l :
  In l (called e ls) -> In l ls.
Proof.
  induction ls as [|x ls IH]; [intros []|].
  cbn. intros [<-|H]; [left; reflexivity|]. right.
  destruct (run x e); [auto | destruct H].
Qed.

(** The effect of every action on the subscriber set. *)
Lemma perform_listeners (a : Action) (w : World) :
  listeners (perform a w) =
  match a with
  | Subscribe callback =>
      if has_lid (lid callback) (listeners w) then listeners w
      else (listeners w ++ [callback])%list
  | Unsubscribe callback =>
      filter (fun l => negb (Nat.eqb (lid l) (lid callback))) (listeners w)
  | _ => listeners w
  end.
Proof.
  destruct a; unfold perform, after.
  - rewrite login_eq. destruct (find _ _); reflexivity.
  - rewrite register_eq. destruct (find _ _); reflexivity.
  - rewrite logout_eq. reflexivity.
  - rewrite updateProfile_eq. cbv zeta. destruct (lastUpdated _ _ _); reflexivity.
  - unfold getRooms. rewrite load_rooms. reflexivity.
  - rewrite createRoom_eq. reflexivity.
  - rewrite deleteRoom_eq. reflexivity.
  - unfold getUsers. rewrite load_users. reflexivity.
  - rewrite getMessages_eq. reflexivity.
  - rewrite sendMessage_eq. reflexivity.
  - unfold subscribeToSocket. cbn [snd]. destruct (has_lid _ _); reflexivity.
  - reflexivity.
  - rewrite fire_eq. destruct (timers w); reflexivity.
Qed.

Lemma has_lid_false n ls :
  has_lid n ls = false -> ~ In n (map lid ls).
Proof.
  unfold has_lid. intros H Hin. apply in_map_iff in Hin. destruct Hin as [l [Hl Hin]].
  assert (K : existsb (fun l => Nat.eqb (lid l) n) ls = true).
  { apply existsb_exists. exists l. split; [exact Hin|]. apply Nat.eqb_eq. exact Hl. }
  congruence.
Qed.

Lemma filter_keeps_lids_distinct (keep : Listener -> bool) (ls : list Listener) :
  NoDup (map lid ls) -> NoDup (map lid (filter keep ls)).
Proof.
  intros H. induction ls as [|x ls IH]; [constructor|].
  cbn in *. inversion H as [|? ? Hnin Hnd]; subst.
  destruct (keep x); [|auto]. cbn. constructor; [|auto].
  intros Hin. apply Hnin. apply in_map_iff in Hin. destruct Hin as [y [Hy Hin]].
  apply in_map_iff. exists y. split; [exact Hy|]. apply filter_In in Hin. tauto.
Qed.

(** X12.  In every state reached from an empty process, no callback is
    subscribed twice; subscribing a subscribed callback changes nothing. *)
Theorem subscribers_stay_distinct (c : nat -> Z) (actions : list Action) :
  NoDup (map lid (listeners (runActions actions (initWorld c))))
  /\ (forall callback w,
        has_lid (lid callback) (listeners w) = true ->
        after (subscribeToSocket callback) w = w).
Proof.
  split.
  - assert (G : forall w, NoDup (map lid (listeners w)) ->
                          NoDup (map lid (listeners (runActions actions w)))).
    { induction actions as [|a actions IH]; intros w H; [exact H|].
      cbn [runActions fold_left]. apply IH. rewrite perform_listeners.
      destruct a; try exact H.
      - destruct (has_lid (lid callback) (listeners w)) eqn:E; [exact H|].
        rewrite map_app. apply NoDup_app; [exact H | repeat constructor; intros [] |].
        intros n Hn [<-|[]]. exact (has_lid_false _ _ E Hn).
      - apply filter_keeps_lids_distinct. exact H. }
    apply G. constructor.
  - intros callback w H. unfold after, subscribeToSocket. cbn [snd]. rewrite H.
    reflexivity.
Qed.

Lemma subscribers_stay_distinct_witness :
  has_lid (lid quiet) (listeners (pendingDelivery thrower quiet)) = true
  /\ after (subscribeToSocket quiet) (pendingDelivery thrower quiet)
     = pendingDelivery thrower quiet.
Proof.
  assert (H : has_lid (lid quiet) (listeners (pendingDelivery thrower quiet)) = true)
    by reflexivity.
  split; [exact H|].
  exact (proj2 (subscribers_stay_distinct (fun _ => 0) []) quiet _ H).
Defined.

(** X13.  Once unsubscribed, a callback is not called by the next firing,
    while every other subscriber stays; subscribing a fresh callback and
    unsubscribing it restores the subscriber set. *)
Theorem unsubscribe_silences (callback : Listener) (w : World) :
  let w' := after (unsubscribe callback) w in
  has_lid (lid callback) (listeners w') = false
  /\ (forall l, In l (listeners w) -> lid l <> lid callback -> In l (listeners w'))
  /\ (exists calls,
        delivered (after fire w') = (delivered w ++ calls)%list
        /\ forall e, ~ In (lid callback, e) calls)
  /\ (has_lid (lid callback) (listeners w) = false ->
      listeners (after (unsubscribe callback) (after (subscribeToSocket callback) w))
      = listeners w).
Proof.
  cbv zeta.
  replace (after (unsubscribe callback) w)
    with (set_listeners
            (filter (fun l => negb (Nat.eqb (lid l) (lid callback))) (listeners w)) w)
    by reflexivity.
  set (keep := fun l => negb (Nat.eqb (lid l) (lid callback))).
  assert (Hk : forall ls l, In l (filter keep ls) -> lid l <> lid callback).
  { intros ls l Hl. apply filter_In in Hl. destruct Hl as [_ Hl]. unfold keep in Hl.
    apply negb_true_iff in Hl. apply Nat.eqb_neq. exact Hl. }
  split; [|split; [|split]].
  - cbn [listeners set_listeners]. unfold has_lid.
    destruct (existsb _ _) eqn:E; [|reflexivity].
    apply existsb_exists in E. destruct E as [l [Hl He]].
    apply Nat.eqb_eq in He. exfalso. exact (Hk _ _ Hl He).
  - intros l Hl Hne. cbn [listeners set_listeners]. apply filter_In.
    split; [exact Hl|]. unfold keep. apply negb_true_iff. apply Nat.eqb_neq. exact Hne.
  - unfold after. rewrite fire_eq. cbn [timers set_listeners].
    destruct (timers w) as [|e rest];
      cbn [snd delivered set_delivered set_timers listeners set_listeners].
    + exists []. rewrite app_nil_r. split; [reflexivity|]. intros e [].
    + eexists. split; [reflexivity|]. intros e' Hin.
      unfold receipts in Hin. apply in_map_iff in Hin. destruct Hin as [l [Hl Hin]].
      apply called_incl in Hin. injection Hl as Hl _.
      exact (Hk _ _ Hin Hl).
  - intros Hfresh. unfold after, unsubscribe, subscribeToSocket. cbn [snd].
    rewrite Hfresh. cbn [listeners set_listeners]. fold keep.
    rewrite filter_app. cbn [filter]. unfold keep at 2. rewrite Nat.eqb_refl. cbn [negb].
    rewrite app_nil_r. apply filter_all. intros l Hl. unfold keep.
    apply negb_true_iff. apply Nat.eqb_neq. intros He.
    apply (has_lid_false _ _ Hfresh). apply in_map_iff. exists l. auto.
Qed.

Lemma unsubscribe_silences_witness :
  In quiet (listeners (pendingDelivery thrower quiet))
  /\ lid quiet <> lid thrower
  /\ In quiet (listeners (after (unsubscribe thrower) (pendingDelivery thrower quiet))).
Proof.
  assert (Hin : In quiet (listeners (pendingDelivery thrower quiet)))
    by (right; left; reflexivity).
  assert (Hne : lid quiet <> lid thrower) by discriminate.
  repeat (split; [assumption|]).
  exact (proj1 (proj2 (unsubscribe_silences thrower (pendingDelivery thrower quiet)))
           quiet Hin Hne).
Defined.

(** X14.  Only a firing timeout calls subscribers.  Every other action leaves
    the record of calls alone and queues at most one event, of the type
    that belongs to the command; reads and (un)subscriptions queue none. *)
Theorem commands_queue_at_most_one (a : Action) (w : World) :
  a <> Fire ->
  delivered (perform a w) = delivered w
  /\ exists es,
       timers (perform a w) = (timers w ++ es)%list
       /\ (length es <= 1)%nat
       /\ Forall (fun e => announces a e = true) es
       /\ (isRead a = true \/ isSocketAction a = true -> es = []).
Proof.
  intros Ha.
  assert (Q : forall es : list Event, timers w = (timers w ++ [])%list)
    by (intros _; symmetry; apply app_nil_r).
  destruct a; unfold perform, after.
  - rewrite login_eq. destruct (find _ _); cbn [snd]; split; try reflexivity.
    + eexists [_]. repeat split; [cbn; lia | repeat constructor | ].
      intros [H|H]; discriminate.
    + exists []. repeat split; [apply (Q []) | cbn; lia | constructor].
  - rewrite register_eq. destruct (find _ _); cbn [snd]; split; try reflexivity.
    + exists []. repeat split; [apply (Q []) | cbn; lia | constructor].
    + eexists [_]. repeat split; [cbn; lia | repeat constructor | ].
      intros [H|H]; discriminate.
  - rewrite logout_eq. cbn [snd]. split; [reflexivity|].
    eexists [_]. repeat split; [cbn; lia | repeat constructor | ].
    intros [H|H]; discriminate.
  - rewrite updateProfile_eq. cbv zeta. destruct (lastUpdated _ _ _); cbn [snd];
      split; try reflexivity.
    + eexists [_]. repeat split; [cbn; lia | repeat constructor | ].
      intros [H|H]; discriminate.
    + exists []. repeat split; [apply (Q []) | cbn; lia | constructor].
  - unfold getRooms. rewrite load_rooms. cbn [snd]. split; [reflexivity|].
    exists []. repeat split; [apply (Q []) | cbn; lia | constructor].
  - rewrite createRoom_eq. cbn [snd]. split; [reflexivity|].
    eexists [_]. repeat split; [cbn; lia | repeat constructor | ].
    intros [H|H]; discriminate.
  - rewrite deleteRoom_eq. cbn [snd]. split; [reflexivity|].
    eexists [_]. repeat split; [cbn; lia | repeat constructor | ].
    intros [H|H]; discriminate.
  - unfold getUsers. rewrite load_users. cbn [snd]. split; [reflexivity|].
    exists []. repeat split; [apply (Q []) | cbn; lia | constructor].
  - rewrite getMessages_eq. cbn [snd]. split; [reflexivity|].
    exists []. repeat split; [apply (Q []) | cbn; lia | constructor].
  - rewrite sendMessage_eq. cbn [snd]. split; [reflexivity|].
    eexists [_]. repeat split; [cbn; lia | repeat constructor | ].
    intros [H|H]; discriminate.
  - unfold subscribeToSocket. cbn [snd]. destruct (has_lid _ _); split; try reflexivity;
      exists []; repeat split; try apply (Q []); try (cbn; lia); constructor.
  - cbn [snd unsubscribe]. split; [reflexivity|].
    exists []. repeat split; [apply (Q []) | cbn; lia | constructor].
  - contradiction.
Qed.

Lemma commands_queue_at_most_one_witness :
  DeleteRoom "r9" <> Fire
  /\ delivered (perform (DeleteRoom "r9") (pendingDelivery thrower quiet))
     = delivered (pendingDelivery thrower quiet).
Proof.
  assert (H : DeleteRoom "r9" <> Fire) by discriminate.
  split; [exact H|].
  exact (proj1 (commands_queue_at_most_one _ (pendingDelivery thrower quiet) H)).
Defined.

Lemma fire_listeners w : listeners (after fire w) = listeners w.
Proof. exact (perform_listeners Fire w). Qed.

Lemma drain_eq (ts : list Event) :
  forall w, timers w = ts ->
    timers (runActions (repeat Fire (length ts)) w) = []
    /\ delivered (runActions (repeat Fire (length ts)) w)
       = (delivered w
          ++ flat_map (fun e => receipts e (called e (listeners w))) ts)%list.
Proof.
  induction ts as [|e rest IH]; intros w Ht.
  - cbn. rewrite app_nil_r. auto.
  - cbn [length repeat runActions fold_left].
    fold (runActions (repeat Fire (length rest)) (perform Fire w)).
    assert (T : timers (perform Fire w) = rest).
    { unfold perform, after. rewrite fire_eq, Ht. reflexivity. }
    destruct (IH _ T) as [H1 H2]. split; [exact H1|].
    rewrite H2. change (perform Fire w) with (after fire w).
    rewrite fire_listeners. unfold after. rewrite fire_eq, Ht.
    cbn [snd delivered set_delivered flat_map]. rewrite <- app_assoc. reflexivity.
Qed.

Lemma flat_map_ext_on {A B} (f g : A -> list B) (l : list A) :
  (forall x, In x l -> f x = g x) -> flat_map f l = flat_map g l.
Proof.
  induction l as [|x l IH]; intros H; [reflexivity|].
  cbn. rewrite (H x (or_introl eq_refl)). f_equal. apply IH.
  intros y Hy. apply H. right. exact Hy.
Qed.

(** X15.  Firing once per pending broadcast empties the queue and delivers
    the events oldest first, each to the subscribers in order up to and
    including the first that throws; if none throws, every subscriber
    receives every event. *)
Theorem pending_events_fire_in_order (w : World) :
  let w' := runActions (repeat Fire (length (timers w))) w in
  timers w' = []
  /\ delivered w'
     = (delivered w
        ++ flat_map (fun e => receipts e (called e (listeners w))) (timers w))%list
  /\ ((forall e l, In e (timers w) -> In l (listeners w) -> run l e = Ok tt) ->
      delivered w'
      = (delivered w ++ flat_map (fun e => receipts e (listeners w)) (timers w))%list).
Proof.
  cbv zeta. destruct (drain_eq (timers w) w eq_refl) as [H1 H2].
  split; [exact H1|]. split; [exact H2|].
  intros H. rewrite H2. f_equal.
  apply flat_map_ext_on. intros e He.
  rewrite called_all; [reflexivity|]. intros l Hl. apply H; assumption.
Qed.

Lemma pending_events_fire_in_order_witness :
  (forall e l, In e (timers (pendingDelivery quiet quiet)) ->
               In l (listeners (pendingDelivery quiet quiet)) -> run l e = Ok tt)
  /\ delivered (runActions (repeat Fire 1) (pendingDelivery quiet quiet))
     = [(lid quiet, ROOM_DELETED "r1")].
Proof.
  assert (H : forall e l, In e (timers (pendingDelivery quiet quiet)) ->
                          In l (listeners (pendingDelivery quiet quiet)) ->
                          run l e = Ok tt).
  { intros e l _ [<-|[]]. reflexivity. }
  split; [exact H|].
  exact (proj2 (proj2 (pending_events_fire_in_order (pendingDelivery quiet quiet))) H).
Defined.

(** X16.  The receivers of an event are the subscribers at the time its
    timeout fires: a callback subscribed between broadcast and firing
    receives it, one subscribed after the firing does not. *)
Theorem subscribers_at_firing_time (w : World) (callback : Listener) (e : Event) :
  timers w = [] ->
  has_lid (lid callback) (listeners w) = false ->
  (forall l, In l (listeners w) -> run l e = Ok tt) ->
  delivered (after (broadcast e ;; subscribeToSocket callback ;; fire) w)
  = (delivered w ++ receipts e (listeners w) ++ [(lid callback, e)])%list
  /\ delivered (after (broadcast e ;; fire ;; subscribeToSocket callback) w)
     = (delivered w ++ receipts e (listeners w))%list.
Proof.
  intros Ht Hfresh Hok. unfold after, bind, broadcast, subscribeToSocket.
  cbn [timers set_timers listeners set_listeners]. rewrite Hfresh.
  rewrite !fire_eq. cbn [timers set_timers listeners set_listeners]. rewrite Ht.
  cbn [app]. split.
  - assert (C : called e (listeners w ++ [callback]) = (listeners w ++ [callback])%list).
    { clear -Hok. induction (listeners w) as [|l ls IH];
        [cbn; destruct (run callback e); reflexivity|].
      cbn. rewrite (Hok l (or_introl eq_refl)). f_equal. apply IH.
      intros x Hx. apply Hok. right. exact Hx. }
    destruct (outcome e (listeners w ++ [callback])); cbn [snd delivered set_delivered];
      rewrite C; unfold receipts; rewrite map_app; reflexivity.
  - rewrite (called_all e _ Hok).
    assert (O : outcome e (listeners w) = Ok tt).
    { clear -Hok. induction (listeners w) as [|l ls IH]; [reflexivity|].
      cbn. rewrite (Hok l (or_introl eq_refl)). apply IH.
      intros x Hx. apply Hok. right. exact Hx. }
    rewrite O. cbn [listeners set_delivered set_timers]. rewrite Hfresh. reflexivity.
Qed.

Lemma subscribers_at_firing_time_witness :
  timers freshWorld = []
  /\ has_lid (lid quiet) (listeners freshWorld) = false
  /\ (forall l, In l (listeners freshWorld) -> run l (ROOM_DELETED "r1") = Ok tt)
  /\ delivered (after (broadcast (ROOM_DELETED "r1") ;; subscribeToSocket quiet ;; fire)
                  freshWorld)
     = [(lid quiet, ROOM_DELETED "r1")].
Proof.
  assert (Ht : timers freshWorld = []) by reflexivity.
  assert (Hf : has_lid (lid quiet) (listeners freshWorld) = false) by reflexivity.
  assert (Hok : forall l, In l (listeners freshWorld) ->
                          run l (ROOM_DELETED "r1") = Ok tt) by (intros l []).
  repeat (split; [assumption|]).
  exact (proj1 (subscribers_at_firing_time freshWorld quiet (ROOM_DELETED "r1") Ht Hf Hok)).
Defined.

(** ** The chat view, continued *)

Lemma listing_only_room r w :
  Forall (fun m => Message.roomId m = r) (listing r w).
Proof.
  apply Forall_forall. intros m Hm. apply filter_In in Hm.
  apply String.eqb_eq. tauto.
Qed.

Lemma executeJoinRoom_eq roomId u w :
  executeJoinRoom roomId u w =
  (Ok (let u' := setMessages (listing roomId w) (setActiveRoomId (Some roomId) u) in
       if innerWidth u <? 768 then setSidebarOpen false u' else u'),
   put chat_messages (messages_of w) w).
Proof.
  unfold executeJoinRoom, bind. rewrite getMessages_eq. reflexivity.
Qed.

(** X17.  A click on a public room joins it without any challenge and loads
    its messages; a click on the active room does nothing. *)
Theorem join_public_room (w : World) (u : UI) (room : Room.t) :
  Room.isPrivate room = false ->
  (is_active (Room.id room) u = true -> handleJoinRoom room u w = (Ok u, w))
  /\ (is_active (Room.id room) u = false ->
      exists u',
        result (handleJoinRoom room u) w = Ok u'
        /\ gate room u' = Joined
        /\ activeRoomId u' = Some (Room.id room)
        /\ messages u' = listing (Room.id room) w
        /\ showPasswordModal u' = showPasswordModal u
        /\ pendingRoom u' = pendingRoom u
        /\ joinError u' = joinError u).
Proof.
  intros Hpub. unfold handleJoinRoom. split; intros Ha; rewrite Ha; [reflexivity|].
  rewrite Hpub. unfold result. rewrite executeJoinRoom_eq. cbn [fst].
  eexists. split; [reflexivity|].
  destruct (innerWidth u <? 768); cbn; unfold gate, is_active; cbn;
    rewrite String.eqb_refl; repeat split.
Qed.

Lemma join_public_room_witness :
  Room.isPrivate lobby = false
  /\ is_active (Room.id lobby) (freshView bob) = false
  /\ exists u',
       result (handleJoinRoom lobby (freshView bob)) lobbyWorld = Ok u'
       /\ gate lobby u' = Joined
       /\ messages u' = listing "r1" lobbyWorld.
Proof.
  assert (Hp : Room.isPrivate lobby = false) by reflexivity.
  assert (Ha : is_active (Room.id lobby) (freshView bob) = false) by reflexivity.
  repeat (split; [assumption|]).
  destruct (proj2 (join_public_room lobbyWorld (freshView bob) lobby Hp) Ha)
    as [u' [R [G [_ [M _]]]]].
  exists u'. repeat split; assumption.
Defined.

Lemma wrong_submit room value u w :
  pendingRoom u = Some room ->
  Room.password room <> Some value ->
  handleJoinPrivateSubmit (ChatApp.typeJoinPassword value u) w
  = (Ok (setJoinError "Incorrect password" (ChatApp.typeJoinPassword value u)), w).
Proof.
  intros Hp Hne. unfold handleJoinPrivateSubmit, ChatApp.typeJoinPassword.
  cbn [pendingRoom setJoinError setJoinPassword joinPassword]. rewrite Hp.
  destruct (same_password (Room.password room) value) eqn:E; [|reflexivity].
  apply same_password_iff in E. contradiction.
Qed.

Lemma submitEach_wrong room value rest u w :
  pendingRoom u = Some room ->
  Room.password room <> Some value ->
  submitEach (value :: rest) u w
  = submitEach rest
      (setJoinError "Incorrect password" (ChatApp.typeJoinPassword value u)) w.
Proof.
  intros Hp Hne. cbn [submitEach]. unfold bind.
  rewrite (wrong_submit room value u w Hp Hne). reflexivity.
Qed.

(** X18.  Wrong credentials can be submitted any number of times: the world,
    the active room and the shown messages stay as they are and the modal
    stays open on the room.  The room's credential, submitted after them,
    joins the room and closes the modal. *)
Theorem retry_until_right (w : World) (u : UI) (room : Room.t)
    (wrong : list string) (good : string) :
  pendingRoom u = Some room ->
  Forall (fun value => Room.password room <> Some value) wrong ->
  Room.password room = Some good ->
  (exists u1,
     submitEach wrong u w = (Ok u1, w)
     /\ pendingRoom u1 = Some room
     /\ showPasswordModal u1 = showPasswordModal u
     /\ activeRoomId u1 = activeRoomId u
     /\ messages u1 = messages u)
  /\ (exists u2,
        result (submitEach (wrong ++ [good]) u) w = Ok u2
        /\ activeRoomId u2 = Some (Room.id room)
        /\ messages u2 = listing (Room.id room) w
        /\ showPasswordModal u2 = false
        /\ pendingRoom u2 = None).
Proof.
  intros Hp Hwrong Hgood. revert u Hp.
  induction Hwrong as [|value wrong Hne _ IH]; intros u Hp.
  - split.
    + exists u. repeat split. exact Hp.
    + cbn [app submitEach]. unfold bind, result, handleJoinPrivateSubmit,
        ChatApp.typeJoinPassword.
      cbn [pendingRoom setJoinError setJoinPassword joinPassword]. rewrite Hp.
      rewrite (proj2 (same_password_iff _ _) Hgood). unfold bind.
      rewrite executeJoinRoom_eq. unfold ret. cbn [fst].
      eexists. split; [reflexivity|].
      destruct (innerWidth _ <? 768); cbn; repeat split.
  - cbn [app]. unfold result. rewrite !(submitEach_wrong room value _ u w Hp Hne).
    set (u' := setJoinError _ _).
    assert (Hp' : pendingRoom u' = Some room) by exact Hp.
    destruct (IH u' Hp') as [[u1 [E1 [P1 [S1 [A1 M1]]]]] [u2 [E2 K2]]].
    split.
    + exists u1. repeat split; assumption.
    + exists u2. split; [exact E2 | exact K2].
Qed.

Lemma retry_until_right_witness :
  pendingRoom (setPendingRoom (Some secretClub) (freshView bob)) = Some secretClub
  /\ Forall (fun value => Room.password secretClub <> Some value) ["12"; "1234"]
  /\ Room.password secretClub = Some "123"
  /\ exists u2,
       result (submitEach ["12"; "1234"; "123"]
                 (setPendingRoom (Some secretClub) (freshView bob))) lobbyWorld = Ok u2
       /\ activeRoomId u2 = Some "r3".
Proof.
  assert (Hp : pendingRoom (setPendingRoom (Some secretClub) (freshView bob))
               = Some secretClub) by reflexivity.
  assert (Hw : Forall (fun value => Room.password secretClub <> Some value)
                 ["12"; "1234"]) by (repeat constructor; discriminate).
  assert (Hg : Room.password secretClub = Some "123") by reflexivity.
  repeat (split; [assumption|]).
  destruct (proj2 (retry_until_right lobbyWorld _ secretClub ["12"; "1234"] "123"
                     Hp Hw Hg)) as [u2 [R [A _]]].
  exists u2. split; assumption.
Defined.

Lemma coherent_join roomId u w :
  coherent (match executeJoinRoom roomId u w with (Ok u', _) => u' | _ => u end).
Proof.
  rewrite executeJoinRoom_eq. cbv zeta.
  intros r Hr. destruct (innerWidth u <? 768); cbn in *; injection Hr as <-;
    apply listing_only_room.
Qed.

(** X19.  Every handler of the view keeps the shown messages within the
    active room. *)
Theorem view_shows_one_room (trim : string -> string) (hasOnUserUpdate : bool)
    (g : Gesture) (v : UI * Panel.t) (w : World) :
  coherent (fst v) ->
  coherent (fst (fst (react trim hasOnUserUpdate g v w))).
Proof.
  intros H. destruct v as [u p]. cbn [fst] in H.
  destruct g; unfold react; cbn [fst snd].
  - (* ClickRoom *)
    unfold handleJoinRoom, bind.
    destruct (is_active (Room.id room) u); [exact H|].
    destruct (Room.isPrivate room); [exact H|].
    pose proof (coherent_join (Room.id room) u w) as K.
    rewrite executeJoinRoom_eq in *. exact K.
  - exact H.
  - (* SubmitJoinPassword *)
    unfold handleJoinPrivateSubmit, bind.
    destruct (pendingRoom u) as [pending|]; [|exact H].
    destruct (same_password _ _); [|exact H].
    pose proof (coherent_join (Room.id pending) u w) as K.
    rewrite executeJoinRoom_eq in *. cbv zeta in *. unfold ret. cbn [fst].
    intros r Hr. apply K. exact Hr.
  - exact H.
  - (* ClickDelete *)
    unfold handleDeleteRoom, try_catch, bind.
    destruct confirmed; cbn [negb]; [|exact H].
    rewrite deleteRoom_eq. exact H.
  - (* SubmitMessage *)
    unfold ChatApp.handleSendMessage.
    destruct (_ || _); [exact H|].
    destruct (activeRoomId u) eqn:A; [|exact H].
    unfold try_catch, bind. rewrite sendMessage_eq. cbn [fst]. exact H.
  - (* SubmitRoomForm *)
    unfold ChatApp.createRoom.
    destruct (falsy _); [exact H|].
    unfold try_catch, bind. rewrite createRoom_eq. cbn [fst]. exact H.
  - (* Incoming *)
    destruct event; cbn [ChatApp.onSocketEvent snd fst]; try exact H.
    + destruct (is_active roomId u); [intros r Hr; discriminate Hr | exact H].
    + destruct (is_active (Message.roomId payload) u) eqn:A; [|exact H].
      intros r Hr. cbn in Hr. cbn [messages setMessages].
      apply Forall_app. split; [exact (H r Hr)|].
      constructor; [|constructor]. unfold is_active in A. rewrite Hr in A.
      apply String.eqb_eq. exact A.
Qed.

Lemma view_shows_one_room_witness :
  coherent (freshView bob)
  /\ coherent (fst (fst (react (fun s => s) false (ClickRoom lobby)
                           (freshView bob, Panel.initial) lobbyWorld))).
Proof.
  assert (H : coherent (freshView bob)) by (intros r Hr; discriminate Hr).
  split; [exact H|].
  exact (view_shows_one_room (fun s => s) false (ClickRoom lobby)
           (freshView bob, Panel.initial) lobbyWorld H).
Defined.

Lemma handleAll_snoc has events e v :
  handleAll has (events ++ [e]) v
  = snd (ChatApp.onSocketEvent has e (handleAll has events v)).
Proof.
  unfold handleAll. rewrite fold_left_app. reflexivity.
Qed.

Lemma existsb_id_false (l : list User.t) (i : string) :
  (forall x, In x l -> User.id x <> i) ->
  existsb (fun x => String.eqb (User.id x) i) l = false.
Proof.
  intros H. destruct (existsb _ l) eqn:E; [|reflexivity].
  apply existsb_exists in E. destruct E as [x [Hx He]]. apply String.eqb_eq in He.
  exfalso. exact (H x Hx He).
Qed.

(** One command on a view in step with the store: the view is in step
    again once it has handled what the command published. *)
Lemma command_keeps_synced has (a : Action) (v : UI * Panel.t) (w : World) :
  a <> Fire ->
  tracked a w ->
  synced v w ->
  exists es,
    timers (perform a w) = (timers w ++ es)%list
    /\ synced (handleAll has es v) (perform a w).
Proof.
  intros Ha Ht [Hr [Hu Hm]]. destruct v as [u p]. cbn [fst snd] in *.
  assert (Q : timers w = (timers w ++ [])%list) by (symmetry; apply app_nil_r).
  destruct a; unfold perform, after.
  - (* Login *)
    rewrite login_eq. destruct (find _ _) as [found|]; cbn [snd].
    + eexists [_]. split; [reflexivity|]. cbn. repeat split; try assumption.
      rewrite Hu. reflexivity.
    + exists []. split; [exact Q|]. repeat split; assumption.
  - (* Register *)
    rewrite register_eq.
    destruct (find _ _) as [taken|] eqn:E; cbn [snd].
    + exists []. split; [exact Q|]. repeat split; assumption.
    + destruct Ht as [Hused|Hfresh].
      { destruct (find_email_some _ _ Hused) as [x Hx]. congruence. }
      eexists [_]. split; [reflexivity|].
      unfold handleAll. cbn [fold_left ChatApp.onSocketEvent snd fst User.id].
      rewrite Hu, (existsb_id_false _ _ Hfresh). repeat split; try assumption.
  - (* Logout *)
    rewrite logout_eq. cbn [snd]. eexists [_]. split; [reflexivity|].
    cbn. repeat split; try assumption. rewrite Hu. reflexivity.
  - (* UpdateProfile *)
    destruct Ht as [Hid Hnd].
    rewrite updateProfile_eq. cbv zeta.
    destruct (lastUpdated userId updates (users_of w)) as [m|] eqn:E; cbn [snd].
    + eexists [_]. split; [reflexivity|]. cbn. repeat split; try assumption.
      rewrite Hu.
      destruct (lastUpdated_some _ _ _ _ E) as [u0 [Hin0 [Hid0 ->]]].
      cbn [snd Panel.users Panel.setUsers].
      transitivity (map (fun x => if String.eqb (User.id x) userId
                                  then User.merge x updates else x) (users_of w));
        [|reflexivity].
      apply map_ext_in. intros x Hx.
      assert (I : User.id (User.merge u0 updates) = userId)
        by (cbn; rewrite Hid; exact Hid0).
      rewrite I. destruct (String.eqb (User.id x) userId) eqn:Ex; [|reflexivity].
      apply String.eqb_eq in Ex.
      rewrite (NoDup_map_inj_in User.id _ x u0 Hnd Hx Hin0); [reflexivity|congruence].
    + exists []. split; [exact Q|]. unfold handleAll, synced. cbn [fold_left snd fst].
      repeat split; try assumption. rewrite Hu.
      transitivity (map (fun x => if String.eqb (User.id x) userId
                                  then User.merge x updates else x) (users_of w));
        [|reflexivity].
      rewrite <- (map_id (users_of w)) at 1. apply map_ext_in. intros x Hx.
      pose proof (proj1 (lastUpdated_none _ _ _) E x Hx) as K.
      apply String.eqb_neq in K. rewrite K. reflexivity.
  - (* GetRooms *)
    unfold getRooms. rewrite load_rooms. cbn [snd].
    exists []. split; [exact Q|]. repeat split; assumption.
  - (* CreateRoom *)
    rewrite createRoom_eq. cbn [snd]. eexists [_]. split; [reflexivity|].
    cbn. repeat split; try assumption. rewrite Hr. reflexivity.
  - (* DeleteRoom *)
    rewrite deleteRoom_eq. cbn [snd]. eexists [_]. split; [reflexivity|].
    unfold handleAll, synced. cbn [fold_left ChatApp.onSocketEvent snd fst].
    split; [|split].
    + cbn. rewrite Hr. reflexivity.
    + exact Hu.
    + intros r. destruct (is_active roomId u); [discriminate|]. apply Hm.
  - (* GetUsers *)
    unfold getUsers. rewrite load_users. cbn [snd].
    exists []. split; [exact Q|]. repeat split; assumption.
  - (* GetMessages *)
    rewrite getMessages_eq. cbn [snd].
    exists []. split; [exact Q|]. repeat split; assumption.
  - (* SendMessage *)
    rewrite sendMessage_eq. cbv zeta. cbn [snd]. eexists [_]. split; [reflexivity|].
    cbn [handleAll fold_left ChatApp.onSocketEvent snd fst].
    set (sent := Message.stamp message _ _).
    assert (L : forall r, listing r (publish (NEW_MESSAGE sent)
                             (put chat_messages (messages_of w ++ [sent])%list
                                (tick 2 w)))
                          = (listing r w ++ if String.eqb (Message.s_roomId message) r
                                            then [sent] else [])%list).
    { intros r. unfold listing.
      cbn [messages_of publish put tick set_timers set_storage set_ticks storage
           setItem item_messages]. rewrite filter_app. reflexivity. }
    repeat split; try assumption.
    intros r. rewrite L. unfold is_active.
    change (Message.roomId sent) with (Message.s_roomId message).
    destruct (activeRoomId u) as [a|] eqn:A; cbn [fst].
    + destruct (String.eqb (Message.s_roomId message) a) eqn:Ea; cbn; rewrite A;
        intros Hact; injection Hact as <-; rewrite Ea, (Hm a eq_refl);
        [reflexivity | symmetry; apply app_nil_r].
    + rewrite A. discriminate.
  - (* Subscribe *)
    unfold subscribeToSocket. cbn [snd].
    exists []. destruct (has_lid _ _); (split; [exact Q|]); repeat split; assumption.
  - (* Unsubscribe *)
    exists []. split; [exact Q|]. repeat split; assumption.
  - contradiction.
Qed.

Lemma synced_same_store v w w' :
  rooms_of w' = rooms_of w -> users_of w' = users_of w ->
  messages_of w' = messages_of w ->
  synced v w -> synced v w'.
Proof.
  intros Hr Hu Hm [Sr [Su Sm]]. unfold synced, listing. rewrite Hr, Hu, Hm.
  repeat split; assumption.
Qed.

Lemma step_keeps_settled has (a : Action) (v : UI * Panel.t) (w : World) :
  tracked a w ->
  settled has v w ->
  settled has (fst (stepWithView has a (v, w))) (snd (stepWithView has a (v, w))).
Proof.
  intros Ht Hs. unfold settled in *.
  assert (Cmd : a <> Fire ->
                synced (handleAll has (timers (perform a w)) v) (perform a w)).
  { intros Ha.
    destruct (command_keeps_synced has a _ w Ha Ht Hs) as [es [Te Se]].
    rewrite Te. unfold handleAll in *. rewrite fold_left_app. exact Se. }
  destruct a; try (cbn [stepWithView fst snd]; apply Cmd; discriminate).
  cbn [stepWithView]. destruct (timers w) as [|e rest] eqn:T; cbn [fst snd].
  - unfold perform, after. rewrite fire_eq, T. cbn [snd]. rewrite T. exact Hs.
  - unfold perform, after. rewrite fire_eq, T. cbn [snd timers set_delivered set_timers].
    eapply synced_same_store; [| | |exact Hs]; reflexivity.
Qed.

(** X20.  A subscribed view that is in step with the store up to the pending
    broadcasts stays so under every run of tracked backend actions and
    firings; with no broadcast pending it shows the store's rooms, users
    and the messages of its active room. *)
Theorem view_catches_up (hasOnUserUpdate : bool) (actions : list Action)
    (v : UI * Panel.t) (w : World) :
  settled hasOnUserUpdate v w ->
  allTracked hasOnUserUpdate actions (v, w) ->
  let v' := fst (runWithView hasOnUserUpdate actions (v, w)) in
  let w' := snd (runWithView hasOnUserUpdate actions (v, w)) in
  settled hasOnUserUpdate v' w'
  /\ (timers w' = [] ->
      Panel.rooms (snd v') = rooms_of w'
      /\ Panel.users (snd v') = users_of w'
      /\ forall r, activeRoomId (fst v') = Some r -> messages (fst v') = listing r w').
Proof.
  cbv zeta. revert v w. induction actions as [|a actions IH]; intros v w Hs Ht.
  - cbn. split; [exact Hs|]. intros T. unfold settled in Hs. rewrite T in Hs. exact Hs.
  - destruct Ht as [Ht1 Ht2]. cbn [snd] in Ht1.
    pose proof (step_keeps_settled hasOnUserUpdate a v w Ht1 Hs) as K.
    cbn [runWithView fold_left].
    fold (runWithView hasOnUserUpdate actions (stepWithView hasOnUserUpdate a (v, w))).
    destruct (stepWithView hasOnUserUpdate a (v, w)) as [v1 w1] eqn:E.
    cbn [fst snd] in K. exact (IH v1 w1 K Ht2).
Qed.

Lemma view_catches_up_witness :
  settled false (freshView bob, loadedPanel) freshWorld
  /\ allTracked false [CreateRoom vault; Fire; DeleteRoom "r1"; Fire]
       (freshView bob, loadedPanel, freshWorld)
  /\ settled false
       (fst (runWithView false [CreateRoom vault; Fire; DeleteRoom "r1"; Fire]
               (freshView bob, loadedPanel, freshWorld)))
       (snd (runWithView false [CreateRoom vault; Fire; DeleteRoom "r1"; Fire]
               (freshView bob, loadedPanel, freshWorld))).
Proof.
  assert (Hs : settled false (freshView bob, loadedPanel) freshWorld).
  { repeat split. }
  assert (Ht : allTracked false [CreateRoom vault; Fire; DeleteRoom "r1"; Fire]
                 (freshView bob, loadedPanel, freshWorld)).
  { cbn. tauto. }
  repeat (split; [assumption|]).
  exact (proj1 (view_catches_up false _ _ _ Hs Ht)).
Defined.

(** X21.  The [USER_JOINED] of a registration is still pending when the new
    user's view loads its data; the loaded list already holds the user,
    and handling the event afterwards changes nothing. *)
Theorem own_registration_listed_once (hasOnUserUpdate : bool) (w : World)
    (name email password : string) (newUser : User.t) (u : UI) (p : Panel.t) :
  result (register name email password) w = Ok newUser ->
  let w1 := after (register name email password) w in
  timers w1 = (timers w ++ [USER_JOINED newUser])%list
  /\ exists p1,
       result (ChatApp.loadData p) w1 = Ok p1
       /\ Panel.rooms p1 = rooms_of w1
       /\ Panel.users p1 = users_of w1
       /\ In newUser (Panel.users p1)
       /\ ChatApp.onSocketEvent hasOnUserUpdate (USER_JOINED newUser) (u, p1)
          = (Ok tt, (u, p1)).
Proof.
  intros R. cbv zeta. unfold result, after in *. rewrite register_eq in *.
  destruct (find _ (users_of w)); [discriminate|].
  cbv zeta in *. cbn [fst snd] in *. injection R as <-.
  set (newUser := User.mk _ name email (Some password) _ true None).
  set (w1 := publish _ _).
  split; [reflexivity|].
  unfold ChatApp.loadData, bind, getRooms, getUsers.
  rewrite load_rooms, load_users. unfold ret. cbn [fst].
  eexists. split; [reflexivity|].
  assert (Hin : In newUser (users_of w1)).
  { change (In newUser (users_of w ++ [newUser])). apply in_or_app. right. left.
    reflexivity. }
  split; [reflexivity|]. split; [reflexivity|]. split; [exact Hin|].
  cbn [ChatApp.onSocketEvent Panel.users Panel.setUsers Panel.setRooms].
  change (users_of (put chat_rooms (rooms_of w1) w1)) with (users_of w1).
  assert (X : existsb (fun x => String.eqb (User.id x) (User.id newUser)) (users_of w1)
              = true).
  { apply existsb_exists. exists newUser. split; [exact Hin | apply String.eqb_refl]. }
  rewrite X. reflexivity.
Qed.

Lemma own_registration_listed_once_witness :
  exists newUser,
    result (register "Zed" "zed@test.com" "s3cret") freshWorld = Ok newUser
    /\ timers (after (register "Zed" "zed@test.com" "s3cret") freshWorld)
       = [USER_JOINED newUser].
Proof.
  eexists. assert (R : result (register "Zed" "zed@test.com" "s3cret") freshWorld = Ok _)
    by reflexivity.
  split; [exact R|].
  exact (proj1 (own_registration_listed_once false freshWorld "Zed" "zed@test.com"
                  "s3cret" _ (freshView bob) Panel.initial R)).
Defined.

(** X22.  No socket event makes the view list a user id twice. *)
Theorem view_user_ids_stay_distinct (hasOnUserUpdate : bool) (e : Event)
    (u : UI) (p : Panel.t) :
  NoDup (map User.id (Panel.users p)) ->
  NoDup (map User.id
           (Panel.users (snd (snd (ChatApp.onSocketEvent hasOnUserUpdate e (u, p)))))).
Proof.
  intros H. destruct e; cbn [ChatApp.onSocketEvent snd Panel.users Panel.setUsers Panel.setRooms];
    try exact H.
  - rewrite map_ext_in_id; [exact H|]. intros x _.
    destruct (String.eqb (User.id x) (User.id payload)) eqn:E; [|reflexivity].
    apply String.eqb_eq in E. symmetry. exact E.
  - destruct (existsb _ (Panel.users p)) eqn:E; [exact H|].
    cbn [Panel.users Panel.setUsers]. rewrite map_app.
    apply NoDup_app; [exact H | repeat constructor; intros [] |].
    intros i Hi [<-|[]]. apply in_map_iff in Hi. destruct Hi as [x [Hx Hin]].
    assert (K : existsb (fun x => String.eqb (User.id x) (User.id payload))
                  (Panel.users p) = true).
    { apply existsb_exists. exists x. split; [exact Hin|]. apply String.eqb_eq. exact Hx. }
    congruence.
  - rewrite map_ext_in_id; [exact H|]. intros x _.
    destruct (String.eqb (User.id x) userId); reflexivity.
Qed.

Lemma view_user_ids_stay_distinct_witness :
  NoDup (map User.id (Panel.users loadedPanel))
  /\ NoDup (map User.id
             (Panel.users (snd (snd (ChatApp.onSocketEvent false (USER_JOINED bob)
                                       (freshView bob, loadedPanel)))))).
Proof.
  assert (H : NoDup (map User.id (Panel.users loadedPanel))).
  { repeat constructor; cbn; intuition discriminate. }
  split; [exact H|].
  exact (view_user_ids_stay_distinct false (USER_JOINED bob) (freshView bob) loadedPanel H).
Defined.

(** X23.  [App] passes no [onUserUpdate], so the subscriber of the view throws
    on a [USER_UPDATE] for its own user, after updating its list; every
    successful login queues such an event.  It returns normally on every
    other event. *)
Theorem own_update_throws_in_chat (w : World) (email password : string)
    (user : User.t) (u : UI) (p : Panel.t) :
  result (login email password) w = Ok user ->
  currentUser u = user ->
  timers (after (login email password) w) = (timers w ++ [USER_UPDATE user])%list
  /\ fst (ChatApp.onSocketEvent App.chatProps_hasOnUserUpdate (USER_UPDATE user) (u, p))
     = Throw (notAFunction "onUserUpdate")
  /\ Panel.users
       (snd (snd (ChatApp.onSocketEvent App.chatProps_hasOnUserUpdate (USER_UPDATE user)
                    (u, p))))
     = map (fun x => if String.eqb (User.id x) (User.id user) then user else x)
           (Panel.users p)
  /\ (forall e,
        (forall payload, e = USER_UPDATE payload -> User.id payload <> User.id user) ->
        fst (ChatApp.onSocketEvent App.chatProps_hasOnUserUpdate e (u, p)) = Ok tt).
Proof.
  intros R Hu. unfold result, after in *. rewrite login_eq in *.
  destruct (find _ (users_of w)); [|discriminate].
  cbv zeta in *. cbn [fst snd] in *. injection R as <-.
  split; [reflexivity|].
  unfold ChatApp.onSocketEvent, App.chatProps_hasOnUserUpdate.
  cbn [fst snd Panel.users Panel.setUsers]. rewrite Hu, String.eqb_refl.
  split; [reflexivity|]. split; [reflexivity|].
  intros e He. destruct e; try reflexivity. cbn [fst].
  pose proof (He payload eq_refl) as K. apply String.eqb_neq in K.
  rewrite K. reflexivity.
Qed.

Lemma own_update_throws_in_chat_witness :
  result (login "user2@test.com" "password123") freshWorld = Ok (User.set_isOnline true bob)
  /\ currentUser (freshView (User.set_isOnline true bob)) = User.set_isOnline true bob
  /\ fst (ChatApp.onSocketEvent App.chatProps_hasOnUserUpdate
            (USER_UPDATE (User.set_isOnline true bob))
            (freshView (User.set_isOnline true bob), loadedPanel))
     = Throw (notAFunction "onUserUpdate").
Proof.
  assert (R : result (login "user2@test.com" "password123") freshWorld
              = Ok (User.set_isOnline true bob)) by reflexivity.
  assert (C : currentUser (freshView (User.set_isOnline true bob))
              = User.set_isOnline true bob) by reflexivity.
  repeat (split; [assumption|]).
  exact (proj1 (proj2 (own_update_throws_in_chat freshWorld _ _ _ _ loadedPanel R C))).
Defined.

(** X24.  Nothing is sent without an active room, nor when the input trims to
    empty and no file is selected.  Otherwise one text message goes to the
    active room in the current user's name, with the input as typed, and
    the input is cleared. *)
Theorem handleSendMessage_spec (trim : string -> string) (u : UI) (p : Panel.t)
    (w : World) :
  (ChatApp.noActiveRoom u = true ->
   ChatApp.handleSendMessage trim (u, p) w = (Ok (u, p), w))
  /\ (falsy (trim (Panel.inputMessage p)) = true -> Panel.selectedFiles p = 0%nat ->
      ChatApp.handleSendMessage trim (u, p) w = (Ok (u, p), w))
  /\ (forall a,
        activeRoomId u = Some a -> a <> "" ->
        falsy (trim (Panel.inputMessage p)) = false \/ Panel.selectedFiles p <> 0%nat ->
        let w' := after (ChatApp.handleSendMessage trim (u, p)) w in
        result (ChatApp.handleSendMessage trim (u, p)) w
        = Ok (u, Panel.setInputMessage "" p)
        /\ exists sent,
             messages_of w' = (messages_of w ++ [sent])%list
             /\ timers w' = (timers w ++ [NEW_MESSAGE sent])%list
             /\ Message.roomId sent = a
             /\ Message.senderId sent = User.id (currentUser u)
             /\ Message.senderName sent = User.name (currentUser u)
             /\ Message.content sent = Panel.inputMessage p
             /\ Message.type sent = text).
Proof.
  unfold ChatApp.handleSendMessage. split; [|split].
  - intros H. rewrite H, orb_true_r. reflexivity.
  - intros H1 H2. rewrite H1, H2. reflexivity.
  - intros a Ha Hne Hin. cbv zeta. unfold result, after.
    assert (G : (falsy (trim (Panel.inputMessage p))
                 && Nat.eqb (Panel.selectedFiles p) 0) || ChatApp.noActiveRoom u = false).
    { unfold ChatApp.noActiveRoom, falsy at 2. rewrite Ha.
      apply String.eqb_neq in Hne. rewrite Hne, orb_false_r.
      destruct Hin as [H|H]; [rewrite H; reflexivity|].
      apply Nat.eqb_neq in H. rewrite H. apply andb_false_r. }
    rewrite G, Ha. unfold try_catch, bind. rewrite sendMessage_eq. cbv zeta.
    unfold ret. cbn [fst snd]. split; [reflexivity|].
    eexists. repeat split.
Qed.

Lemma handleSendMessage_spec_witness :
  activeRoomId (setActiveRoomId (Some "r1") (freshView bob)) = Some "r1"
  /\ "r1" <> ""
  /\ (falsy (dropSpaces (Panel.inputMessage (Panel.setInputMessage "hi" Panel.initial)))
      = false
      \/ Panel.selectedFiles (Panel.setInputMessage "hi" Panel.initial) <> 0%nat)
  /\ result (ChatApp.handleSendMessage dropSpaces
               (setActiveRoomId (Some "r1") (freshView bob),
                Panel.setInputMessage "hi" Panel.initial)) freshWorld
     = Ok (setActiveRoomId (Some "r1") (freshView bob),
           Panel.setInputMessage "" (Panel.setInputMessage "hi" Panel.initial)).
Proof.
  assert (Ha : activeRoomId (setActiveRoomId (Some "r1") (freshView bob)) = Some "r1")
    by reflexivity.
  assert (Hne : "r1" <> "") by discriminate.
  assert (Hin : falsy (dropSpaces (Panel.inputMessage
                                     (Panel.setInputMessage "hi" Panel.initial))) = false
                \/ Panel.selectedFiles (Panel.setInputMessage "hi" Panel.initial) <> 0%nat)
    by (left; reflexivity).
  repeat (split; [assumption|]).
  exact (proj1 (proj2 (proj2 (handleSendMessage_spec dropSpaces _ _ freshWorld))
                 "r1" Ha Hne Hin)).
Defined.

(** X25.  A name that trims to empty submits nothing.  Otherwise one room is
    created, owned by the current user, carrying the typed password only
    if private; the form is closed, and the delete control of the room is
    shown exactly to views of the creator's id. *)
Theorem room_form_spec (trim : string -> string) (u : UI) (p : Panel.t) (w : World) :
  (falsy (trim (Panel.newRoomName p)) = true ->
   ChatApp.createRoom trim (u, p) w = (Ok (u, p), w))
  /\ (falsy (trim (Panel.newRoomName p)) = false ->
      let w' := after (ChatApp.createRoom trim (u, p)) w in
      result (ChatApp.createRoom trim (u, p)) w = Ok (u, Panel.closeCreateRoom p)
      /\ exists created,
           rooms_of w' = (rooms_of w ++ [created])%list
           /\ timers w' = (timers w ++ [ROOM_CREATED created])%list
           /\ Room.name created = Panel.newRoomName p
           /\ Room.createdBy created = User.id (currentUser u)
           /\ Room.isPrivate created = Panel.isNewRoomPrivate p
           /\ Room.password created
              = (if Panel.isNewRoomPrivate p then Some (Panel.newRoomPassword p) else None)
           /\ showsDeleteControl u created = true
           /\ (forall other, showsDeleteControl other created = true <->
                             User.id (currentUser other) = User.id (currentUser u))).
Proof.
  unfold ChatApp.createRoom. split; intros H; rewrite H; [reflexivity|].
  cbv zeta. unfold result, after, try_catch, bind. rewrite createRoom_eq. cbv zeta.
  unfold ret. cbn [fst snd]. split; [reflexivity|].
  eexists. repeat split.
  - unfold showsDeleteControl. cbn. apply String.eqb_refl.
  - unfold showsDeleteControl. cbn. apply String.eqb_eq.
  - unfold showsDeleteControl. cbn. apply String.eqb_eq.
Qed.

Lemma room_form_spec_witness :
  falsy (dropSpaces (Panel.newRoomName filledForm)) = false
  /\ result (ChatApp.createRoom dropSpaces (freshView bob, filledForm)) freshWorld
     = Ok (freshView bob, Panel.closeCreateRoom filledForm).
Proof.
  assert (H : falsy (dropSpaces (Panel.newRoomName filledForm)) = false) by reflexivity.
  split; [exact H|].
  exact (proj1 (proj2 (room_form_spec dropSpaces (freshView bob) filledForm freshWorld) H)).
Defined.

Lemma firstPiece_noAt s : hasAt (ChatApp.firstPiece s) = false.
Proof.
  induction s as [|c s IH]; [reflexivity|].
  cbn. destruct (Ascii.eqb c "@") eqn:E; [reflexivity|]. cbn. rewrite E. exact IH.
Qed.

Lemma firstPiece_app local rest :
  hasAt local = false ->
  ChatApp.firstPiece (local ++ String "@" rest) = local.
Proof.
  induction local as [|c s IH]; intros H.
  - reflexivity.
  - cbn in *. apply orb_false_iff in H. destruct H as [Hc Hs].
    rewrite Hc. f_equal. apply IH. exact Hs.
Qed.

Lemma firstPiece_whole s : hasAt s = false -> ChatApp.firstPiece s = s.
Proof.
  induction s as [|c s IH]; intros H; [reflexivity|].
  cbn in *. apply orb_false_iff in H. destruct H as [Hc Hs].
  rewrite Hc. f_equal. apply IH. exact Hs.
Qed.

(** X26.  [maskEmail] keeps what precedes the first [@] and nothing else of
    the address; masking twice is masking once. *)
Theorem maskEmail_hides_domain (local domain : string) :
  hasAt local = false ->
  ChatApp.maskEmail (local ++ "@" ++ domain) = local ++ "@*****"
  /\ ChatApp.maskEmail local = local ++ "@*****"
  /\ (forall email, ChatApp.maskEmail (ChatApp.maskEmail email) = ChatApp.maskEmail email).
Proof.
  intros H. unfold ChatApp.maskEmail. split; [|split].
  - change ("@" ++ domain) with (String "@" domain).
    rewrite (firstPiece_app local domain H). reflexivity.
  - rewrite (firstPiece_whole local H). reflexivity.
  - intros email. change "@*****" with (String "@" "*****").
    rewrite (firstPiece_app _ _ (firstPiece_noAt email)). reflexivity.
Qed.

Lemma maskEmail_hides_domain_witness :
  hasAt "user2" = false
  /\ ChatApp.maskEmail ("user2" ++ "@" ++ "test.com") = "user2" ++ "@*****".
Proof.
  assert (H : hasAt "user2" = false) by reflexivity.
  split; [exact H|].
  exact (proj1 (maskEmail_hides_domain "user2" "test.com" H)).
Defined.

(** ** The application shell *)

(** X27.  A successful login sets the user and saves it, so that a reload
    restores it; the saved record holds the typed password.  A failed one
    shows the error and leaves user, session and event queue alone. *)
Theorem handleLogin_spec (a : App.t) (w : World) :
  (forall u,
     result (login (App.email a) (App.password a)) w = Ok u ->
     exists a',
       App.handleLogin a w = (Ok a', after (login (App.email a) (App.password a)) w)
       /\ App.user a' = Some u
       /\ App.chat_current_user a' = Some u
       /\ App.user (App.mount (App.chat_current_user a')) = Some u
       /\ User.password u = Some (App.password a)
       /\ User.isOnline u = true
       /\ App.error a' = ""
       /\ App.loading a' = false)
  /\ (forall e,
        result (login (App.email a) (App.password a)) w = Throw e ->
        exists a',
          App.handleLogin a w = (Ok a', after (login (App.email a) (App.password a)) w)
          /\ App.user a' = App.user a
          /\ App.chat_current_user a' = App.chat_current_user a
          /\ App.error a' = "Invalid credentials"
          /\ App.loading a' = false
          /\ timers (after (App.handleLogin a) w) = timers w).
Proof.
  unfold App.handleLogin, result, after, bind, try_catch.
  cbn [App.email App.password App.setError App.setLoading].
  rewrite login_eq.
  destruct (find (matches (App.email a) (App.password a)) (users_of w)) as [found|] eqn:E;
    cbv zeta; cbn [fst snd]; split.
  - intros u Hu. injection Hu as <-. unfold ret. eexists. split; [reflexivity|].
    apply find_some in E. destruct E as [_ E]. apply matches_iff in E.
    repeat split. apply E.
  - intros e He. discriminate He.
  - intros u Hu. discriminate Hu.
  - intros e He. injection He as <-. unfold ret. eexists. split; [reflexivity|].
    repeat split.
Qed.

Lemma handleLogin_spec_witness :
  result (login (App.email (loginForm "user2@test.com" "password123"))
            (App.password (loginForm "user2@test.com" "password123"))) freshWorld
  = Ok (User.set_isOnline true bob)
  /\ exists a',
       result (App.handleLogin (loginForm "user2@test.com" "password123")) freshWorld
       = Ok a'
       /\ App.user (App.mount (App.chat_current_user a'))
          = Some (User.set_isOnline true bob).
Proof.
  assert (R : result (login (App.email (loginForm "user2@test.com" "password123"))
                        (App.password (loginForm "user2@test.com" "password123")))
                freshWorld = Ok (User.set_isOnline true bob)) by reflexivity.
  split; [exact R|].
  destruct (proj1 (handleLogin_spec (loginForm "user2@test.com" "password123") freshWorld)
              _ R) as [a' [H [_ [_ [M _]]]]].
  exists a'. split; [|exact M]. unfold result. rewrite H. reflexivity.
Defined.

(** X28.  [handleLogout] clears user, saved session and credential fields;
    it marks the user offline in the store and queues [USER_LEFT] when a
    user was logged in, and leaves the world alone otherwise. *)
Theorem handleLogout_spec (a : App.t) (w : World) :
  let w' := after (App.handleLogout a) w in
  (exists a',
     result (App.handleLogout a) w = Ok a'
     /\ App.user a' = None
     /\ App.chat_current_user a' = None
     /\ App.user (App.mount (App.chat_current_user a')) = None
     /\ App.email a' = "" /\ App.password a' = "")
  /\ (App.user a = None -> w' = w)
  /\ (forall u, App.user a = Some u ->
        timers w' = (timers w ++ [USER_LEFT (User.id u)])%list
        /\ forall x, In x (users_of w') -> User.id x = User.id u ->
                     User.isOnline x = false).
Proof.
  cbv zeta. unfold App.handleLogout, result, after, bind, ret.
  destruct (App.user a) as [u|].
  - rewrite logout_eq. cbn [fst snd]. split; [|split].
    + eexists. repeat split.
    + discriminate.
    + intros u' Hu. injection Hu as <-. split; [reflexivity|].
      intros x Hx Hid.
      change (In x (map (fun y => if String.eqb (User.id y) (User.id u)
                                  then User.set_isOnline false y else y) (users_of w)))
        in Hx.
      apply in_map_iff in Hx. destruct Hx as [y [Hy _]]. subst x.
      destruct (String.eqb (User.id y) (User.id u)) eqn:Ey; [reflexivity|].
      apply String.eqb_neq in Ey. contradiction.
  - cbn [fst snd]. split; [|split].
    + eexists. repeat split.
    + reflexivity.
    + discriminate.
Qed.

Lemma handleLogout_spec_witness :
  App.user (App.mount None) = None
  /\ after (App.handleLogout (App.mount None)) freshWorld = freshWorld.
Proof.
  assert (H : App.user (App.mount None) = None) by reflexivity.
  split; [exact H|].
  exact (proj1 (proj2 (handleLogout_spec (App.mount None) freshWorld)) H).
Defined.

Lemma find_map_preserving {A} (p : A -> bool) (f : A -> A) (l : list A) :
  (forall x, p (f x) = p x) ->
  find p (map f l) = option_map f (find p l).
Proof.
  intros H. induction l as [|x l IH]; [reflexivity|].
  cbn. rewrite H. destruct (p x); [reflexivity | exact IH].
Qed.

(** X29.  Saving the profile never changes an id, an email or an online flag;
    the users with the edited id get the name and avatar of the form.  A
    password field that trims to empty keeps every credential, hence every
    login outcome; otherwise those users get the typed password. *)
Theorem handleSave_spec (trim : string -> string) (user : User.t)
    (name avatar password : string) (w : World) :
  let w' := after (UserProfileModal.handleSave trim user name avatar password) w in
  result (UserProfileModal.handleSave trim user name avatar password) w = Ok true
  /\ map User.id (users_of w') = map User.id (users_of w)
  /\ map User.email (users_of w') = map User.email (users_of w)
  /\ map User.isOnline (users_of w') = map User.isOnline (users_of w)
  /\ (forall x, In x (users_of w') -> User.id x = User.id user ->
                User.name x = name /\ User.avatar x = avatar)
  /\ (falsy (trim password) = true ->
      map User.password (users_of w') = map User.password (users_of w)
      /\ forall e p,
           (exists x, result (login e p) w = Ok x) <->
           (exists x, result (login e p) w' = Ok x))
  /\ (falsy (trim password) = false ->
      forall x, In x (users_of w') -> User.id x = User.id user ->
                User.password x = Some password).
Proof.
  cbv zeta.
  set (updates := UserProfileModal.updatesOf trim name avatar password).
  set (f := fun x => if String.eqb (User.id x) (User.id user)
                     then User.merge x updates else x).
  assert (U : users_of (after (UserProfileModal.handleSave trim user name avatar password) w)
              = map f (users_of w)).
  { unfold UserProfileModal.handleSave, after, try_catch, bind. fold updates.
    rewrite updateProfile_eq. cbv zeta.
    destruct (lastUpdated _ _ _); reflexivity. }
  assert (R : result (UserProfileModal.handleSave trim user name avatar password) w
              = Ok true).
  { unfold UserProfileModal.handleSave, result, try_catch, bind. fold updates.
    rewrite updateProfile_eq. reflexivity. }
  rewrite U. split; [exact R|].
  assert (Hf : forall x, User.id (f x) = User.id x /\ User.email (f x) = User.email x
                         /\ User.isOnline (f x) = User.isOnline x).
  { intros x. unfold f. destruct (String.eqb _ _); repeat split. }
  split; [apply map_ext_in_id; intros x _; apply Hf|].
  split; [apply map_ext_in_id; intros x _; apply Hf|].
  split; [apply map_ext_in_id; intros x _; apply Hf|].
  split; [|split].
  - intros x Hx Hid. apply in_map_iff in Hx. destruct Hx as [y [Hy _]]. subst x.
    unfold f in *. destruct (String.eqb (User.id y) (User.id user)) eqn:Ey.
    + split; reflexivity.
    + apply String.eqb_neq in Ey. contradiction.
  - intros Hblank.
    assert (Hp : forall x, User.password (f x) = User.password x).
    { intros x. unfold f. destruct (String.eqb _ _); [|reflexivity].
      unfold updates, UserProfileModal.updatesOf. rewrite Hblank. reflexivity. }
    split; [apply map_ext_in_id; intros x _; apply Hp|].
    intros e p. unfold result. rewrite !login_eq, U.
    rewrite (find_map_preserving (matches e p) f).
    + destruct (find (matches e p) (users_of w)); cbn; split; intros [x Hx];
        try discriminate; eexists; reflexivity.
    + intros x. unfold matches. destruct (Hf x) as [_ [-> _]]. rewrite Hp. reflexivity.
  - intros Hset x Hx Hid. apply in_map_iff in Hx. destruct Hx as [y [Hy _]]. subst x.
    unfold f in *. destruct (String.eqb (User.id y) (User.id user)) eqn:Ey.
    + unfold updates, UserProfileModal.updatesOf. rewrite Hset. reflexivity.
    + apply String.eqb_neq in Ey. contradiction.
Qed.

Lemma handleSave_spec_witness :
  falsy (dropSpaces "   ") = true
  /\ map User.password
       (users_of (after (UserProfileModal.handleSave dropSpaces bob "Robert"
                           "https://picsum.photos/seed/u2/200" "   ") freshWorld))
     = map User.password (users_of freshWorld).
Proof.
  assert (H : falsy (dropSpaces "   ") = true) by reflexivity.
  split; [exact H|].
  exact (proj1 (proj1 (proj2 (proj2 (proj2 (proj2 (proj2
           (handleSave_spec dropSpaces bob "Robert" "https://picsum.photos/seed/u2/200"
              "   " freshWorld)))))) H)).
Defined.

Lemma handleLogin_eq (a : App.t) (w : World) :
  App.handleLogin a w =
  let a0 := App.setError "" (App.setLoading true a) in
  match login (App.email a) (App.password a) w with
  | (Ok u, w') =>
      (Ok (App.setLoading false
             (App.setItem_current_user (Some u) (App.setUser (Some u) a0))), w')
  | (Throw e, w') =>
      (Ok (App.setLoading false (App.setError (orElse (message_of e) "Login failed") a0)),
       w')
  end.
Proof.
  unfold App.handleLogin, bind, try_catch.
  cbn [App.email App.password App.setError App.setLoading].
  destruct (login (App.email a) (App.password a) w) as [[u|e] w']; reflexivity.
Qed.

Lemma handleRegister_eq (a : App.t) (w : World) :
  App.handleRegister a w =
  let a0 := App.setError "" (App.setLoading true a) in
  match register (App.name a) (App.email a) (App.password a) w with
  | (Ok u, w') =>
      (Ok (App.setLoading false
             (App.setItem_current_user (Some u) (App.setUser (Some u) a0))), w')
  | (Throw e, w') =>
      (Ok (App.setLoading false
             (App.setError (orElse (message_of e) "Registration failed") a0)), w')
  end.
Proof.
  unfold App.handleRegister, bind, try_catch.
  cbn [App.name App.email App.password App.setError App.setLoading].
  destruct (register (App.name a) (App.email a) (App.password a) w) as [[u|e] w'];
    reflexivity.
Qed.

(** X30.  Through the forms: a used email is refused with its message and
    nothing changes; an unused one registers and logs in, and after a
    logout the same email and password log in again. *)
Theorem register_logout_login (a : App.t) (w : World) :
  (email_used (App.email a) w ->
   exists a1,
     result (App.handleRegister a) w = Ok a1
     /\ App.user a1 = App.user a
     /\ App.chat_current_user a1 = App.chat_current_user a
     /\ App.error a1 = "Email already exists"
     /\ timers (after (App.handleRegister a) w) = timers w)
  /\ (~ email_used (App.email a) w ->
      exists a1 a2 a3 newUser again,
        result (App.handleRegister a) w = Ok a1
        /\ App.user a1 = Some newUser
        /\ App.user (App.mount (App.chat_current_user a1)) = Some newUser
        /\ User.email newUser = App.email a
        /\ result (App.handleLogout a1) (after (App.handleRegister a) w) = Ok a2
        /\ App.user a2 = None
        /\ result (App.handleLogin
                     (App.setPassword (App.password a) (App.setEmail (App.email a) a2)))
             (after (App.handleLogout a1) (after (App.handleRegister a) w)) = Ok a3
        /\ App.user a3 = Some again
        /\ User.email again = App.email a
        /\ User.isOnline again = true).
Proof.
  unfold result, after. rewrite handleRegister_eq. cbv zeta. rewrite register_eq.
  split.
  - intros Hused. destruct (find_email_some _ _ Hused) as [x ->].
    eexists. repeat split.
  - intros Hfree. rewrite (find_email_none _ _ Hfree). cbv zeta. cbn [fst snd].
    set (newUser := User.mk _ (App.name a) (App.email a) (Some (App.password a)) _
                      true None).
    set (w1 := publish _ _).
    set (a1 := App.setLoading false
                 (App.setItem_current_user (Some newUser)
                    (App.setUser (Some newUser)
                       (App.setError "" (App.setLoading true a))))).
    set (a2 := App.setPassword ""
                 (App.setEmail "" (App.setItem_current_user None (App.setUser None a1)))).
    set (w2 := publish (USER_LEFT (User.id newUser))
                 (put chat_users
                    (map (fun u => if String.eqb (User.id u) (User.id newUser)
                                   then User.set_isOnline false u else u)
                         (users_of w1)) w1)).
    assert (L : App.handleLogout a1 w1 = (Ok a2, w2)).
    { unfold App.handleLogout, bind. change (App.user a1) with (Some newUser).
      cbv beta iota. rewrite logout_eq. reflexivity. }
    set (off := fun u => if String.eqb (User.id u) (User.id newUser)
                         then User.set_isOnline false u else u).
    assert (U2 : users_of w2 = map off (users_of w ++ [newUser])%list) by reflexivity.
    destruct (find_exists (matches (App.email a) (App.password a)) (users_of w2))
      as [found E].
    { exists (off newUser). rewrite U2. split.
      - apply in_map. apply in_or_app. right. left. reflexivity.
      - unfold off. rewrite String.eqb_refl. apply matches_iff. split; reflexivity. }
    exists a1, a2. eexists. exists newUser, (User.set_isOnline true found).
    rewrite L. cbn [fst snd]. rewrite handleLogin_eq. cbv zeta.
    cbn [App.email App.password App.setPassword App.setEmail].
    rewrite login_eq, E. cbv zeta. cbn [fst snd].
    repeat split.
    apply find_some in E. destruct E as [_ E]. apply matches_iff in E. apply E.
Qed.

Lemma register_logout_login_witness :
  ~ email_used (App.email signUpForm) freshWorld
  /\ exists a1 newUser,
       result (App.handleRegister signUpForm) freshWorld = Ok a1
       /\ App.user a1 = Some newUser
       /\ User.email newUser = "zed@test.com".
Proof.
  assert (H : ~ email_used (App.email signUpForm) freshWorld).
  { intros [u [[<-|[<-|[<-|[<-|[<-|[]]]]]] He]]; discriminate. }
  split; [exact H|].
  destruct (proj2 (register_logout_login signUpForm freshWorld) H)
    as [a1 [_ [_ [newUser [_ [R [U [_ [E _]]]]]]]]].
  exists a1, newUser. repeat split; assumption.
Defined.
